(** * The chat page of the AI researcher front-end

    A shallow embedding of [src/app/page.js] (the [HomePage] component:
    [fetchHistory], [loadConversation], [handleDeleteConversation],
    [handleResearch]) and of [handleKeyDown] of [components/ChatInput.js].

    React state is one record, [State]; every [setX] call is a function on
    it.  A handler closes over the state of the render it was created in and
    runs to completion on the replies the outside world gives it (the
    [fetch] reply, the byte chunks of the response body, the database
    replies), which are arguments of the model.  What a handler does to the
    outside world (requests, dialogs, console output) is appended to a
    trace.  Handlers are modelled one call at a time: no other handler runs
    between two [await]s of the call under study. *)

From Stdlib Require Import ZArith String Ascii DecimalString Bool Lia.
From Stdlib Require Import Strings.Byte.
From stdpp Require Import base list.

Local Open Scope Z_scope.

#[local] Set Warnings "-register-all".

(** ** JavaScript strings

    A JavaScript string is a sequence of UTF-16 code units; [+] and
    template literals are concatenation. *)

Definition jsstring := list Z.

Definition lit (s : string) : jsstring :=
  map (fun a => Z.of_N (N_of_ascii a)) (list_ascii_of_string s).

(** [String(n)] for an integer [n] of magnitude below [2^53]: its decimal
    numeral.  The handlers print response statuses, which lie between 0 and
    999, and numeric conversation ids; beyond [2^53] a number prints with
    the shortest digits that read back to it, and from [10^21] on with an
    exponent, so an id is printed with this function only under
    [safe_integer]. *)
Definition number_to_string (n : Z) : jsstring :=
  lit (NilZero.string_of_int (Z.to_int n)).

(** [!!s]: the empty string is the only falsy string. *)
Definition string_truthy (s : jsstring) : bool :=
  match s with
  | [] => false
  | _ :: _ => true
  end.

(** [s.includes(sub)] as a proposition. *)
Definition contains (s sub : jsstring) : Prop :=
  exists pre post, s = pre ++ sub ++ post.

(** ** The platform's [TextDecoder] for UTF-8

    [TextDecoder] is a built-in of the JavaScript runtime; it is modelled
    after the UTF-8 decoder of the WHATWG Encoding Standard, which browsers
    implement: the five state variables of the decoder, its handler for one
    byte, the replacement error mode of a non-fatal [TextDecoder], the
    byte-order-mark rule of "serialize I/O queue", and the [stream] option
    of [decode]. *)

Module Utf8.

Record decoder_state := mkDecoder {
  code_point : Z;
  bytes_seen : Z;
  bytes_needed : Z;
  lower_boundary : Z;
  upper_boundary : Z
}.

Definition initial : decoder_state := mkDecoder 0 0 0 128 191.

Inductive handler_result :=
| Continue
| Emit (scalar : Z)
| Error
| ErrorRestore.  (* error, and the byte is put back in front of the queue *)

Definition in_range (lo hi b : Z) : bool := (lo <=? b) && (b <=? hi).

(** The handler of the UTF-8 decoder for a byte that is not end-of-queue
    (steps 3 to 11). *)
Definition handler (d : decoder_state) (b : Z) : decoder_state * handler_result :=
  if bytes_needed d =? 0 then
    if in_range 0 127 b then (d, Emit b)
    else if in_range 194 223 b then
      (mkDecoder (Z.land b 31) (bytes_seen d) 1 (lower_boundary d) (upper_boundary d),
       Continue)
    else if in_range 224 239 b then
      (mkDecoder (Z.land b 15) (bytes_seen d) 2
         (if b =? 224 then 160 else lower_boundary d)
         (if b =? 237 then 159 else upper_boundary d),
       Continue)
    else if in_range 240 244 b then
      (mkDecoder (Z.land b 7) (bytes_seen d) 3
         (if b =? 240 then 144 else lower_boundary d)
         (if b =? 244 then 143 else upper_boundary d),
       Continue)
    else (d, Error)
  else if negb (in_range (lower_boundary d) (upper_boundary d) b) then
    (initial, ErrorRestore)
  else
    let cp := Z.lor (Z.shiftl (code_point d) 6) (Z.land b 63) in
    let seen := bytes_seen d + 1 in
    if negb (seen =? bytes_needed d) then
      (mkDecoder cp seen (bytes_needed d) 128 191, Continue)
    else (initial, Emit cp).

(** The handler at end-of-queue (steps 1 and 2): a pending sequence is an
    error. *)
Definition handler_end (d : decoder_state) : decoder_state * handler_result :=
  if negb (bytes_needed d =? 0) then
    (mkDecoder (code_point d) (bytes_seen d) 0 (lower_boundary d) (upper_boundary d),
     Error)
  else (d, Continue).

Definition replacement : Z := 65533.  (* U+FFFD *)

(** What a handler result adds to the output in the replacement error mode. *)
Definition emitted (r : handler_result) : list Z :=
  match r with
  | Continue => []
  | Emit c => [c]
  | Error | ErrorRestore => [replacement]
  end.

(** One byte read from the queue.  After [ErrorRestore] the same byte is
    read again, by a decoder that has just been reset and so needs no
    bytes: that second reading cannot restore the byte once more. *)
Definition process_byte (d : decoder_state) (b : Z) : decoder_state * list Z :=
  let '(d1, r1) := handler d b in
  match r1 with
  | ErrorRestore =>
      let '(d2, r2) := handler d1 b in
      (d2, emitted r1 ++ emitted r2)
  | _ => (d1, emitted r1)
  end.

(** Running the decoder over the bytes of a queue, without end-of-queue. *)
Fixpoint process (d : decoder_state) (bs : list Z) : decoder_state * list Z :=
  match bs with
  | [] => (d, [])
  | b :: rest =>
      let '(d1, out1) := process_byte d b in
      let '(d2, out2) := process d1 rest in
      (d2, out1 ++ out2)
  end.

(** A scalar value as UTF-16 code units. *)
Definition utf16 (c : Z) : jsstring :=
  if c <? 65536 then [c]
  else
    let c' := c - 65536 in
    [55296 + Z.shiftr c' 10; 56320 + Z.land c' 1023].

(** "Serialize I/O queue" with [ignoreBOM] false: the first scalar value of
    the stream is dropped when it is U+FEFF. *)
Fixpoint serialize (bom_seen : bool) (scalars : list Z) : bool * jsstring :=
  match scalars with
  | [] => (bom_seen, [])
  | c :: rest =>
      let '(seen, out) := serialize true rest in
      if negb bom_seen && (c =? 65279) then (seen, out)
      else (seen, utf16 c ++ out)
  end.

End Utf8.

Record TextDecoder := mkTextDecoder {
  td_decoder : Utf8.decoder_state;
  td_bom_seen : bool;
  td_do_not_flush : bool
}.

(** [new TextDecoder()] *)
Definition new_TextDecoder : TextDecoder :=
  mkTextDecoder Utf8.initial false false.

Definition byte_value (b : byte) : Z := Z.of_N (Byte.to_N b).

(** [decoder.decode(value, { stream })] on a [Uint8Array]. *)
Definition decode (td : TextDecoder) (value : list byte) (stream : bool)
  : TextDecoder * jsstring :=
  let td0 := if td_do_not_flush td then td
             else mkTextDecoder Utf8.initial false false in
  let '(d1, out1) := Utf8.process (td_decoder td0) (map byte_value value) in
  let '(d2, out2) :=
    if stream then (d1, [])
    else let '(d, r) := Utf8.handler_end d1 in (d, Utf8.emitted r) in
  let '(seen, text) := Utf8.serialize (td_bom_seen td0) (out1 ++ out2) in
  (mkTextDecoder d2 seen stream, text).

(** The UTF-8 decoding of a whole byte sequence:
    [new TextDecoder().decode(bytes)]. *)
Definition utf8_decode (bytes : list byte) : jsstring :=
  snd (decode new_TextDecoder bytes false).

(** Decoding chunk after chunk with [{ stream: true }] and concatenating the
    results, as the read loop of [handleResearch] does. *)
Fixpoint decode_chunks (td : TextDecoder) (acc : jsstring) (chunks : list (list byte))
  : TextDecoder * jsstring :=
  match chunks with
  | [] => (td, acc)
  | value :: rest =>
      let '(td1, chunk) := decode td value true in
      decode_chunks td1 (acc ++ chunk) rest
  end.

(** ** JavaScript values that arrive as JSON

    What [response.json()] resolves to, and what reading a property of it
    gives.  The handlers only test a number for truthiness and print it, so
    a number is given by these two: whether it differs from zero (and from
    [NaN]), and the text [String] gives for it ([1e+21], [0.5], [7]). *)

Inductive jsvalue :=
| VUndefined
| VNull
| VBool (b : bool)
| VNum (nonzero : bool) (text : jsstring)
| VStr (s : jsstring)
| VArr (items : list jsvalue)
| VObj (fields : list (jsstring * jsvalue)).

(** [!!v] *)
Definition truthy (v : jsvalue) : bool :=
  match v with
  | VUndefined | VNull => false
  | VBool b => b
  | VNum nonzero _ => nonzero
  | VStr s => string_truthy s
  | VArr _ | VObj _ => true
  end.

Definition string_eqb (s t : jsstring) : bool := bool_decide (s = t).

(** The value bound to [key] in the fields of a parsed object: of two
    fields with one name the later one wins. *)
Fixpoint lookup_field (key : jsstring) (fields : list (jsstring * jsvalue)) : jsvalue :=
  match fields with
  | [] => VUndefined
  | (k, v) :: rest =>
      match lookup_field key rest with
      | VUndefined => if string_eqb k key then v else VUndefined
      | later => later
      end
  end.

(** [v.key] for a key that names no built-in property ([detail], [role],
    [content]): [None] when the access throws a [TypeError]. *)
Definition get_prop (v : jsvalue) (key : jsstring) : option jsvalue :=
  match v with
  | VUndefined | VNull => None
  | VObj fields => Some (lookup_field key fields)
  | _ => Some VUndefined
  end.

Fixpoint join (sep : jsstring) (parts : list jsstring) : jsstring :=
  match parts with
  | [] => []
  | [p] => p
  | p :: rest => p ++ sep ++ join sep rest
  end.

(** Whether a parsed object has a field named [key] of its own. *)
Definition has_own (key : jsstring) (fields : list (jsstring * jsvalue)) : bool :=
  existsb (fun field => string_eqb (fst field) key) fields.

(** [String(v)], which is also what a template literal and [new Error(v)]
    make of [v]: [None] when the conversion throws a [TypeError].  A parsed
    object inherits [toString] and prints as [[object Object]], unless it
    has a field [toString] of its own: that field is no function, the
    inherited [valueOf] returns the object, and the conversion throws.  An
    array joins the texts of its elements, [undefined] and [null] giving the
    empty text. *)
Fixpoint to_js_string (v : jsvalue) : option jsstring :=
  match v with
  | VUndefined => Some (lit "undefined")
  | VNull => Some (lit "null")
  | VBool true => Some (lit "true")
  | VBool false => Some (lit "false")
  | VNum _ text => Some text
  | VStr s => Some s
  | VArr items =>
      option_map (join (lit ","))
        ((fix each (l : list jsvalue) : option (list jsstring) :=
            match l with
            | [] => Some []
            | x :: rest =>
                match
                  match x with
                  | VUndefined | VNull => Some []
                  | _ => to_js_string x
                  end
                with
                | None => None
                | Some part => option_map (cons part) (each rest)
                end
            end) items)
  | VObj fields =>
      if has_own (lit "toString") fields then None
      else Some (lit "[object Object]")
  end.

(** The message of what [throw new Error(v)] throws: the text of [v], or
    that of the [TypeError] its conversion raises.  Every [v] the handlers
    pass is truthy, so never [undefined]. *)
Definition error_message_of (type_error : jsstring) (v : jsvalue) : jsstring :=
  default type_error (to_js_string v).

(** ** The data model of the page *)

Record Message := mkMessage {
  role : jsvalue;
  content : jsvalue
}.

Definition user_message (text : jsstring) : Message :=
  mkMessage (VStr (lit "user")) (VStr text).

Definition ai_message (text : jsstring) : Message :=
  mkMessage (VStr (lit "ai")) (VStr text).

(** [m.role === 'ai'] *)
Definition is_ai (m : Message) : bool :=
  match role m with
  | VStr r => string_eqb r (lit "ai")
  | _ => false
  end.

(** [session.user.id].  The session always comes from [supabase.auth]; the
    id of a user is a UUID, so the id of a signed-in user is not empty. *)
Record Session := mkSession {
  user_id : jsstring
}.

(** A conversation id is a primitive of the database: an integer or a
    string. *)
Inductive ConvId :=
| IdNum (n : Z)
| IdStr (s : jsstring).

#[global] Instance ConvId_eq_dec : EqDecision ConvId.
Proof. solve_decision. Defined.

(** [a === b] on ids *)
Definition id_eqb (a b : ConvId) : bool := bool_decide (a = b).

(** The numeric ids that [number_to_string] prints as the engine does. *)
Definition safe_integer (n : Z) : bool := Z.abs n <? 2 ^ 53.

Definition safe_id (i : ConvId) : bool :=
  match i with
  | IdNum n => safe_integer n
  | IdStr _ => true
  end.

(** A variable that holds an id or [null]. *)
Definition id_truthy (i : option ConvId) : bool :=
  match i with
  | None => false
  | Some (IdNum n) => negb (n =? 0)
  | Some (IdStr s) => string_truthy s
  end.

(** The text of an id in a template literal, for a string id and for a
    numeric id under [safe_id], which prints as its decimal numeral. *)
Definition id_to_string (i : ConvId) : jsstring :=
  match i with
  | IdNum n => number_to_string n
  | IdStr s => s
  end.

Record Conversation := mkConversation {
  conv_id : ConvId;
  query_text : jsstring;
  created_at : jsstring
}.

(** The [useState] cells of [HomePage]. *)
Record State := mkState {
  session : option Session;
  messages : list Message;
  query : jsstring;
  history : list Conversation;
  currentConversationId : option ConvId;
  isLoading : bool;
  isLoadingHistory : bool;
  isLoadingConversation : bool;
  sidebarOpen : bool
}.

Definition setMessages (f : list Message -> list Message) (s : State) : State :=
  mkState (session s) (f (messages s)) (query s) (history s)
    (currentConversationId s) (isLoading s) (isLoadingHistory s)
    (isLoadingConversation s) (sidebarOpen s).

Definition setQuery (q : jsstring) (s : State) : State :=
  mkState (session s) (messages s) q (history s)
    (currentConversationId s) (isLoading s) (isLoadingHistory s)
    (isLoadingConversation s) (sidebarOpen s).

Definition setHistory (f : list Conversation -> list Conversation) (s : State) : State :=
  mkState (session s) (messages s) (query s) (f (history s))
    (currentConversationId s) (isLoading s) (isLoadingHistory s)
    (isLoadingConversation s) (sidebarOpen s).

Definition setCurrentConversationId (i : option ConvId) (s : State) : State :=
  mkState (session s) (messages s) (query s) (history s)
    i (isLoading s) (isLoadingHistory s)
    (isLoadingConversation s) (sidebarOpen s).

Definition setIsLoading (b : bool) (s : State) : State :=
  mkState (session s) (messages s) (query s) (history s)
    (currentConversationId s) b (isLoadingHistory s)
    (isLoadingConversation s) (sidebarOpen s).

Definition setIsLoadingHistory (b : bool) (s : State) : State :=
  mkState (session s) (messages s) (query s) (history s)
    (currentConversationId s) (isLoading s) b
    (isLoadingConversation s) (sidebarOpen s).

Definition setIsLoadingConversation (b : bool) (s : State) : State :=
  mkState (session s) (messages s) (query s) (history s)
    (currentConversationId s) (isLoading s) (isLoadingHistory s)
    b (sidebarOpen s).

Definition setSidebarOpen (b : bool) (s : State) : State :=
  mkState (session s) (messages s) (query s) (history s)
    (currentConversationId s) (isLoading s) (isLoadingHistory s)
    (isLoadingConversation s) b.

(** ** The outside world *)

(** What a handler asks of, or shows to, the outside world. *)
Inductive effect :=
| PostResearch (q : jsstring) (uid : jsstring) (conversation : option ConvId)
| GetConversation (path : jsstring)
| SelectConversations (uid : jsstring)
| DeleteMessages (conversation : ConvId)
| DeleteConversation (conversation : ConvId)
| Confirm (text : jsstring)
| Alert (text : jsstring)
| ConsoleError (label : jsstring) (detail : jsstring).

(** How the body stream of a response ends: [reader.read()] resolves with
    [done], or rejects. *)
Inductive stream_end :=
| EndOfStream
| ReadFails (message : jsstring).

Record Stream := mkStream {
  chunks : list (list byte);
  ending : stream_end
}.

(** What [response.json()] does. *)
Inductive json_result :=
| JsonRejects (message : jsstring)
| JsonResolves (v : jsvalue).

(** A response, as far as the handlers look at it: the status (an integer
    from 0 to 999, by the Fetch standard), the body read as JSON, and the
    body read as a stream ([None]: [response.body] is [null]). *)
Record Response := mkResponse {
  status : Z;
  json : json_result;
  body : option Stream
}.

(** [response.ok] *)
Definition ok (r : Response) : bool := (200 <=? status r) && (status r <=? 299).

(** What [await fetch(...)] does. *)
Inductive fetch_reply :=
| FetchRejects (message : jsstring)
| FetchResolves (r : Response).

(** What awaiting a select on [conversations] does: it throws, or resolves
    to [{ data, error }]. *)
Inductive select_reply :=
| SelectThrows (message : jsstring)
| SelectResolves (data : option (list Conversation)) (error : option jsstring).

(** What awaiting a delete does: it throws, or resolves to [{ error }]. *)
Inductive delete_reply :=
| DeleteThrows (message : jsstring)
| DeleteResolves (error : option jsstring).

(** ** Handlers as programs

    A handler is a function of the world: the React state and the trace of
    what the handler has done to the outside.  It returns, or throws an
    [Error] (kept as its [message]). *)

Record World := mkWorld {
  ui : State;
  trace : list effect
}.

Inductive result (A : Type) :=
| Returns (a : A)
| Throws (message : jsstring).

Arguments Returns {A} a.
Arguments Throws {A} message.

Definition M (A : Type) : Type := World -> result A * World.

Definition ret {A} (a : A) : M A := fun w => (Returns a, w).

Definition throw {A} (message : jsstring) : M A := fun w => (Throws message, w).

Definition bind {A B} (m : M A) (k : A -> M B) : M B :=
  fun w =>
    match m w with
    | (Returns a, w1) => k a w1
    | (Throws e, w1) => (Throws e, w1)
    end.

(** [try { m } catch (error) { h error.message }] *)
Definition try_catch {A} (m : M A) (h : jsstring -> M A) : M A :=
  fun w =>
    match m w with
    | (Returns a, w1) => (Returns a, w1)
    | (Throws e, w1) => h e w1
    end.

(** [try { m } finally { fin }] *)
Definition try_finally {A} (m : M A) (fin : M unit) : M A :=
  fun w =>
    let '(r, w1) := m w in
    match fin w1 with
    | (Returns _, w2) => (r, w2)
    | (Throws e, w2) => (Throws e, w2)
    end.

(** A [setX] call. *)
Definition update (f : State -> State) : M unit :=
  fun w => (Returns tt, mkWorld (f (ui w)) (trace w)).

Definition emit (e : effect) : M unit :=
  fun w => (Returns tt, mkWorld (ui w) (trace w ++ [e])).

(** The values a handler closes over are those of the render it belongs
    to. *)
Definition with_render {A} (f : State -> M A) : M A := fun w => f (ui w) w.

Declare Scope handler_scope.
Delimit Scope handler_scope with handler.
Notation "x <- m ;; k" := (bind m (fun x => k))
  (at level 100, m at next level, right associativity) : handler_scope.
Notation "m ;; k" := (bind m (fun _ => k))
  (at level 100, right associativity) : handler_scope.
Local Open Scope handler_scope.

(** [await fetch(...)]: the request goes out, then the promise settles. *)
Definition fetch (request : effect) (reply : fetch_reply) : M Response :=
  emit request ;;
  match reply with
  | FetchRejects e => throw e
  | FetchResolves r => ret r
  end.

(** [await response.json()] *)
Definition response_json (r : Response) : M jsvalue :=
  match json r with
  | JsonRejects e => throw e
  | JsonResolves v => ret v
  end.

(** [v.key]; [type_error] is the message of the [TypeError] the engine
    throws. *)
Definition prop (type_error : jsstring) (v : jsvalue) (key : jsstring) : M jsvalue :=
  match get_prop v key with
  | Some x => ret x
  | None => throw type_error
  end.

(** [a || b] *)
Definition or_else (a b : jsvalue) : jsvalue := if truthy a then a else b.

(** [await supabase.from(...).delete().eq(...)] followed by
    [if (error) throw error]. *)
Definition await_delete (request : effect) (reply : delete_reply) : M unit :=
  emit request ;;
  match reply with
  | DeleteThrows e => throw e
  | DeleteResolves (Some e) => throw e
  | DeleteResolves None => ret tt
  end.

(** *** [startNewChat] *)
Definition startNewChat : M unit :=
  update (setMessages (fun _ => [])) ;;
  update (setQuery []) ;;
  update (setCurrentConversationId None) ;;
  update (setSidebarOpen false).

(** *** [fetchHistory] *)
Definition fetchHistory (reply : select_reply) (userId : jsstring)
  : M (option (list Conversation)) :=
  if negb (string_truthy userId) then ret None
  else
    update (setIsLoadingHistory true) ;;
    try_finally
      (try_catch
         (emit (SelectConversations userId) ;;
          match reply with
          | SelectThrows e => throw e
          | SelectResolves _ (Some e) => throw e
          | SelectResolves data None =>
              update (setHistory (fun _ => default [] data)) ;;
              ret data
          end)
         (fun message =>
            emit (ConsoleError (lit "Error fetching history:") message) ;;
            update (setHistory (fun _ => [])) ;;
            ret (Some [])))
      (update (setIsLoadingHistory false)).

(** *** [loadConversation] *)

(** What the outside world answers to one call.  [conversation_type_error]
    is the message of the [TypeError] the engine raises in this call, if it
    raises one (a property read of [null], a conversion to a string that
    throws, a [data.map] that is no function): the first one ends the [try]
    block, so one call sees at most one.  [conversation_id_text] is the text
    the engine prints for the requested id when that is a number of
    magnitude [2^53] or more (the shortest digits that read back to it, with
    an exponent from [10^21] on). *)
Record ConversationWorld := mkConversationWorld {
  conversation_reply : fetch_reply;
  conversation_type_error : jsstring;
  conversation_id_text : jsstring
}.

(** [data.map(msg => ({ role: msg.role, content: msg.content }))] *)
Fixpoint map_rows (type_error : jsstring) (items : list jsvalue) : M (list Message) :=
  match items with
  | [] => ret []
  | msg :: rest =>
      r <- prop type_error msg (lit "role") ;;
      c <- prop type_error msg (lit "content") ;;
      rows <- map_rows type_error rest ;;
      ret (mkMessage r c :: rows)
  end.

(** The URL of a conversation whose id is a string or a number of magnitude
    below [2^53]. *)
Definition conversation_url (conversationId : ConvId) : jsstring :=
  lit "https://ai-researcher-backend-tyr0.onrender.com/conversation/"
  ++ id_to_string conversationId.

(** [`https://.../conversation/${conversationId}`] *)
Definition requested_url (env : ConversationWorld) (conversationId : ConvId) : jsstring :=
  if safe_id conversationId then conversation_url conversationId
  else lit "https://ai-researcher-backend-tyr0.onrender.com/conversation/"
       ++ conversation_id_text env.

Definition load_failure (message : jsstring) : Message :=
  ai_message (lit "Failed to load conversation: " ++ message).

Definition loadConversation (env : ConversationWorld) (conversationId : option ConvId)
  : M unit :=
  with_render (fun render =>
    match conversationId with
    | None => ret tt
    | Some cid =>
        if negb (id_truthy conversationId) || isLoadingConversation render then ret tt
        else
          update (setIsLoadingConversation true) ;;
          update (setMessages (fun _ => [])) ;;
          update (setSidebarOpen false) ;;
          update (setCurrentConversationId conversationId) ;;
          try_finally
            (try_catch
               (response <- fetch (GetConversation (requested_url env cid))
                              (conversation_reply env) ;;
                data <- response_json response ;;
                if negb (ok response) then
                  detail <- prop (conversation_type_error env) data (lit "detail") ;;
                  throw (error_message_of (conversation_type_error env)
                           (or_else detail (VStr (lit "Failed to load messages."))))
                else
                  match data with
                  | VArr items =>
                      rows <- map_rows (conversation_type_error env) items ;;
                      update (setMessages (fun _ => rows))
                  | _ => throw (conversation_type_error env)
                  end)
               (fun message =>
                  emit (ConsoleError (lit "Error loading conversation:") message) ;;
                  update (setMessages (fun _ => [load_failure message]))))
            (update (setIsLoadingConversation false))
    end).

(** *** [handleDeleteConversation] *)

Record DeleteWorld := mkDeleteWorld {
  confirm_reply : bool;
  messages_delete_reply : delete_reply;
  conversation_delete_reply : delete_reply
}.

Definition confirm_text (c : Conversation) : jsstring :=
  lit "Are you sure you want to delete the chat: " ++ [34] ++ query_text c
  ++ [34] ++ lit "?".

Definition handleDeleteConversation (env : DeleteWorld) (conversationId : ConvId)
  : M unit :=
  with_render (fun render =>
    match List.find (fun conv => id_eqb (conv_id conv) conversationId) (history render) with
    | None => ret tt
    | Some convToDelete =>
        emit (Confirm (confirm_text convToDelete)) ;;
        if negb (confirm_reply env) then ret tt
        else
          try_catch
            (await_delete (DeleteMessages conversationId) (messages_delete_reply env) ;;
             await_delete (DeleteConversation conversationId)
               (conversation_delete_reply env) ;;
             update (setHistory
                       (List.filter (fun conv => negb (id_eqb (conv_id conv) conversationId)))) ;;
             if bool_decide (currentConversationId render = Some conversationId)
             then startNewChat
             else ret tt)
            (fun message =>
               emit (ConsoleError (lit "Error deleting conversation:") message) ;;
               emit (Alert (lit "Failed to delete chat: " ++ message)))
    end).

(** *** [handleResearch] *)

(** The answers to one send; [research_type_error] is the message of the
    [TypeError] of this call, as for [ConversationWorld]. *)
Record ResearchWorld := mkResearchWorld {
  research_reply : fetch_reply;
  history_reply : select_reply;
  research_type_error : jsstring
}.

(** The updater of [setMessages] in the read loop. *)
Definition stream_update (aiResponseContent : jsstring) (prev : list Message)
  : list Message :=
  let updatedMessages := prev in
  if bool_decide (0 < length updatedMessages)%nat then
    match updatedMessages !! (length updatedMessages - 1)%nat with
    | Some m =>
        if is_ai m then
          <[(length updatedMessages - 1)%nat := ai_message aiResponseContent]> updatedMessages
        else updatedMessages
    | None => updatedMessages
    end
  else updatedMessages.

(** The updater of [setMessages] in the [catch] block. *)
Definition error_update (errorMessage : Message) (prev : list Message) : list Message :=
  let lastMessageIndex := Z.of_nat (length prev) - 1 in
  if (0 <=? lastMessageIndex)
     && match prev !! Z.to_nat lastMessageIndex with
        | Some m => is_ai m
        | None => false
        end
  then take (Z.to_nat lastMessageIndex) prev ++ [errorMessage]
  else prev ++ [errorMessage].

Definition research_error (message : jsstring) : Message :=
  ai_message (lit "Error: " ++ message ++ [10; 10]
              ++ lit "There was an issue connecting to the AI service.").

(** [while (true) { const { done, value } = await reader.read(); ... }] over
    the chunks the stream still holds. *)
Fixpoint read_loop (pending : list (list byte)) (e : stream_end)
    (decoder : TextDecoder) (aiResponseContent : jsstring) : M unit :=
  match pending with
  | [] =>
      match e with
      | EndOfStream => ret tt
      | ReadFails message => throw message
      end
  | value :: rest =>
      let '(decoder1, chunk) := decode decoder value true in
      let aiResponseContent1 := aiResponseContent ++ chunk in
      update (setMessages (stream_update aiResponseContent1)) ;;
      read_loop rest e decoder1 aiResponseContent1
  end.

(** [!session || !query || isLoading] *)
Definition send_blocked (s : State) : bool :=
  negb (bool_decide (is_Some (session s)))
  || negb (string_truthy (query s))
  || isLoading s.

(** The [try] block. *)
Definition research_try (env : ResearchWorld) (render : State) (sess : Session)
  : M unit :=
  response <- fetch (PostResearch (query render) (user_id sess)
                       (currentConversationId render))
                (research_reply env) ;;
  if negb (ok response) then
    let errorBody :=
      VStr (lit "HTTP error! status: " ++ number_to_string (status response)) in
    errorBody1 <- try_catch
                    (errJson <- response_json response ;;
                     detail <- prop (research_type_error env) errJson (lit "detail") ;;
                     ret (or_else detail errorBody))
                    (fun _ => ret errorBody) ;;
    throw (error_message_of (research_type_error env) errorBody1)
  else
    match body response with
    | None => throw (research_type_error env)
    | Some stream => read_loop (chunks stream) (ending stream) new_TextDecoder []
    end.

(** The [catch] block. *)
Definition research_catch (message : jsstring) : M unit :=
  emit (ConsoleError (lit "Error fetching research:") message) ;;
  update (setMessages (error_update (research_error message))).

(** The [finally] block; [session] is the object the guard has seen, so
    [isNewChat && session] is [isNewChat]. *)
Definition research_finally (env : ResearchWorld) (isNewChat : bool) (sess : Session)
  : M unit :=
  update (setIsLoading false) ;;
  if isNewChat then
    newHistory <- fetchHistory (history_reply env) (user_id sess) ;;
    match newHistory with
    | Some (newest :: _) => update (setCurrentConversationId (Some (conv_id newest)))
    | _ => ret tt
    end
  else ret tt.

Definition handleResearch (env : ResearchWorld) : M unit :=
  with_render (fun render =>
    match session render with
    | None => ret tt
    | Some sess =>
        if send_blocked render then ret tt
        else
          update (setIsLoading true) ;;
          let userMessage := user_message (query render) in
          let isNewChat := negb (id_truthy (currentConversationId render)) in
          update (setMessages (fun prev => prev ++ [userMessage])) ;;
          update (setQuery []) ;;
          let aiMessagePlaceholder := ai_message [] in
          update (setMessages (fun prev => prev ++ [aiMessagePlaceholder])) ;;
          try_finally
            (try_catch (research_try env render sess) research_catch)
            (research_finally env isNewChat sess)
    end).

(** Running a handler on a state, from an empty trace. *)
Definition run {A} (m : M A) (s : State) : result A * World := m (mkWorld s []).

Definition state_after {A} (m : M A) (s : State) : State := ui (snd (run m s)).

Definition trace_of {A} (m : M A) (s : State) : list effect := trace (snd (run m s)).

(** *** [handleKeyDown] and the send button of [ChatInput] *)

Record KeyEvent := mkKeyEvent {
  key : jsstring;
  shiftKey : bool
}.

(** The [isLoading] prop the page passes to [ChatInput]. *)
Definition input_isLoading (s : State) : bool := isLoading s || isLoadingConversation s.

(** Returns whether [e.preventDefault()] was called. *)
Definition handleKeyDown (env : ResearchWorld) (e : KeyEvent) : M bool :=
  with_render (fun render =>
    if string_eqb (key e) (lit "Enter") && negb (shiftKey e)
       && negb (input_isLoading render) && string_truthy (query render)
    then handleResearch env ;; ret true
    else ret false).

(** [disabled={isLoading || !query}] on the button whose [onClick] is
    [handleResearch]: a disabled button does not fire. *)
Definition send_disabled (s : State) : bool :=
  input_isLoading s || negb (string_truthy (query s)).

Definition click_send (env : ResearchWorld) : M unit :=
  with_render (fun render =>
    if send_disabled render then ret tt else handleResearch env).

(** * The vocabulary of the properties

    Nothing below belongs to the page.  These are the states and worlds the
    examples run in, and summaries of what a handler does, written as
    functions of the replies it gets; each summary is proved to agree with
    the handler before a property uses it. *)

(** ** A first send in a new chat *)

Definition signed_in (q : jsstring) : State :=
  mkState (Some (mkSession (lit "u1"))) [] q [] None false false false false.

Definition hello_world : ResearchWorld :=
  mkResearchWorld
    (FetchResolves
       (mkResponse 200 (JsonRejects (lit "Unexpected token"))
          (Some (mkStream [[x48; x69]; [x20; x74; x68; x65; x72; x65]] EndOfStream))))
    (SelectResolves
       (Some [mkConversation (IdNum 7) (lit "hello") (lit "2025-01-02");
              mkConversation (IdNum 3) (lit "older") (lit "2025-01-01")])
       None)
    (lit "TypeError").

(** ** The decoder along chunk boundaries *)

(** A decoder that is fresh or already streaming keeps its state on the
    next streaming call. *)
Definition streaming (td : TextDecoder) : Prop :=
  td_do_not_flush td = true \/ td = new_TextDecoder.

(** What [new TextDecoder().decode(bytes)] adds at the end of the input and
    a streaming call does not: the replacement character for a sequence
    that is still incomplete. *)
Definition pending_replacement (td : TextDecoder) : jsstring :=
  if Utf8.bytes_needed (td_decoder td) =? 0 then [] else [Utf8.replacement].

(* literals and printed numbers stay folded during simplification *)
Arguments lit : simpl never.
Arguments number_to_string : simpl never.
Arguments to_js_string : simpl never.
Arguments error_message_of : simpl never.

(** ** What a send does *)

Definition end_result (e : stream_end) : result unit :=
  match e with
  | EndOfStream => Returns tt
  | ReadFails message => Throws message
  end.

(** The message with which the [try] block throws for a response that is
    not [ok]. *)
Definition http_error_message (type_error : jsstring) (r : Response) : jsstring :=
  let errorBody := VStr (lit "HTTP error! status: " ++ number_to_string (status r)) in
  error_message_of type_error
    match json r with
    | JsonRejects _ => errorBody
    | JsonResolves errJson =>
        match get_prop errJson (lit "detail") with
        | Some detail => or_else detail errorBody
        | None => errorBody
        end
    end.

(** The message of the error the [try] block ends with, [None] when the
    stream is read to its end. *)
Definition research_failure (env : ResearchWorld) : option jsstring :=
  match research_reply env with
  | FetchRejects message => Some message
  | FetchResolves r =>
      if ok r then
        match body r with
        | None => Some (research_type_error env)
        | Some stream =>
            match ending stream with
            | EndOfStream => None
            | ReadFails message => Some message
            end
        end
      else Some (http_error_message (research_type_error env) r)
  end.

(** The chunks the read loop receives. *)
Definition received_chunks (env : ResearchWorld) : list (list byte) :=
  match research_reply env with
  | FetchRejects _ => []
  | FetchResolves r =>
      match body r with
      | Some stream => if ok r then chunks stream else []
      | None => []
      end
  end.

(** The entry that follows the user's message once the [try] and [catch]
    blocks are done. *)
Definition final_entry (env : ResearchWorld) : Message :=
  match research_failure env with
  | Some message => research_error message
  | None => ai_message (snd (decode_chunks new_TextDecoder [] (received_chunks env)))
  end.

Definition failure_log (env : ResearchWorld) : list effect :=
  match research_failure env with
  | Some message => [ConsoleError (lit "Error fetching research:") message]
  | None => []
  end.

(** The error with which the select on [conversations] ends, if any. *)
Definition history_failure (reply : select_reply) : option jsstring :=
  match reply with
  | SelectThrows message => Some message
  | SelectResolves _ (Some message) => Some message
  | SelectResolves _ None => None
  end.

(** The list [fetchHistory] stores with [setHistory]. *)
Definition refetched (reply : select_reply) : list Conversation :=
  match reply with
  | SelectResolves data None => default [] data
  | _ => []
  end.

(** What [fetchHistory] returns. *)
Definition fetched_value (reply : select_reply) : option (list Conversation) :=
  match reply with
  | SelectResolves data None => data
  | _ => Some []
  end.

Definition history_log (reply : select_reply) (userId : jsstring) : list effect :=
  SelectConversations userId
  :: match history_failure reply with
     | Some message => [ConsoleError (lit "Error fetching history:") message]
     | None => []
     end.

(** Whether the [finally] block asks the database for the history. *)
Definition resyncs (isNewChat : bool) (sess : Session) : bool :=
  isNewChat && string_truthy (user_id sess).

Definition resync_log (env : ResearchWorld) (isNewChat : bool) (sess : Session)
  : list effect :=
  if resyncs isNewChat sess then history_log (history_reply env) (user_id sess) else [].

(** The state the [finally] block leaves. *)
Definition finally_state (env : ResearchWorld) (isNewChat : bool) (sess : Session)
    (s : State) : State :=
  if resyncs isNewChat sess then
    mkState (session s) (messages s) (query s) (refetched (history_reply env))
      match refetched (history_reply env) with
      | newest :: _ => Some (conv_id newest)
      | [] => currentConversationId s
      end
      false false (isLoadingConversation s) (sidebarOpen s)
  else setIsLoading false s.

(** The state just before the [finally] block of a send that started in
    [s]. *)
Definition settled (env : ResearchWorld) (s : State) : State :=
  mkState (session s)
    (messages s ++ [user_message (query s); final_entry env])
    [] (history s) (currentConversationId s) true
    (isLoadingHistory s) (isLoadingConversation s) (sidebarOpen s).

Definition isNewChat_of (s : State) : bool := negb (id_truthy (currentConversationId s)).

(** The state in which the [try] block of a send that started in [s]
    begins: the busy flag raised, the user message and the empty ai
    placeholder appended, the input emptied. *)
Definition sending (s : State) : State :=
  setMessages (fun prev => prev ++ [ai_message []])
    (setQuery []
       (setMessages (fun prev => prev ++ [user_message (query s)])
          (setIsLoading true s))).

(** A body whose last chunk stops after the first byte of a two-byte
    character: "caf" followed by 0xC3. *)
Definition truncated_stream : Stream :=
  mkStream [[x63; x61]; [x66; xc3]] EndOfStream.

Definition truncated_world : ResearchWorld :=
  mkResearchWorld
    (FetchResolves (mkResponse 200 (JsonRejects (lit "Unexpected token")) (Some truncated_stream)))
    (SelectResolves (Some []) None)
    (lit "TypeError").

(** ** No two ai entries in a row *)

Fixpoint consecutive_ai (l : list Message) : bool :=
  match l with
  | [] => false
  | m1 :: rest =>
      match rest with
      | [] => false
      | m2 :: _ => (is_ai m1 && is_ai m2) || consecutive_ai rest
      end
  end.

(** ** Deleting a conversation *)

(** The error with which a delete ends, if any. *)
Definition delete_failure (reply : delete_reply) : option jsstring :=
  match reply with
  | DeleteThrows message => Some message
  | DeleteResolves error => error
  end.

Definition two_chats : State :=
  mkState (Some (mkSession (lit "u1"))) [] []
    [mkConversation (IdNum 7) (lit "hello") (lit "2025-01-02");
     mkConversation (IdNum 3) (lit "older") (lit "2025-01-01")]
    (Some (IdNum 7)) false false false false.

Definition two_chats_asking : State := setQuery (lit "and then?") two_chats.

Definition half_deleted : DeleteWorld :=
  mkDeleteWorld true (DeleteResolves None) (DeleteResolves (Some (lit "permission denied"))).

Definition offline_world : ResearchWorld :=
  mkResearchWorld (FetchRejects (lit "Failed to fetch"))
    (SelectResolves
       (Some [mkConversation (IdNum 3) (lit "older") (lit "2025-01-01")]) None)
    (lit "TypeError").

(** ** The error path of a send *)

(** A fetch fails before any of the body is read: [fetch] rejects, or the
    status is not 2xx. *)
Definition fetch_failed (reply : fetch_reply) : bool :=
  match reply with
  | FetchRejects _ => true
  | FetchResolves r => negb (ok r)
  end.

(** No select on [conversations] in a trace. *)
Definition no_resync (tr : list effect) : Prop :=
  forall uid, ~ In (SelectConversations uid) tr.

(** ** The overloaded backend *)

(** A response with status 500 and the JSON body [{"detail":"overloaded"}]. *)
Definition overloaded (stream : option Stream) : Response :=
  mkResponse 500 (JsonResolves (VObj [(lit "detail", VStr (lit "overloaded"))])) stream.

Definition overloaded_world : ResearchWorld :=
  mkResearchWorld (FetchResolves (overloaded None)) (SelectResolves (Some []) None)
    (lit "TypeError").

(** A response with status 500 and the JSON body
    [{"detail":{"toString":"x"}}]: the conversion of this detail throws. *)
Definition unprintable_detail : ResearchWorld :=
  mkResearchWorld
    (FetchResolves
       (mkResponse 500
          (JsonResolves (VObj [(lit "detail", VObj [(lit "toString", VStr (lit "x"))])]))
          None))
    (SelectResolves (Some []) None)
    (lit "Cannot convert object to primitive value").

(** ** The resync after a send in a new chat *)

(** What a resync leaves: the select in the trace, the refetched list as
    the history, and its first entry, if any, as the active conversation. *)
Definition resynced (env : ResearchWorld) (sess : Session)
    (after : State) (tr : list effect) : Prop :=
  In (SelectConversations (user_id sess)) tr
  /\ history after = refetched (history_reply env)
  /\ forall newest rest,
       refetched (history_reply env) = newest :: rest ->
       currentConversationId after = Some (conv_id newest).

(** ** Loading a conversation *)

(** The message of the error the [catch] block of [loadConversation] then
    receives. *)
Definition load_error_message (env : ConversationWorld) : jsstring :=
  match conversation_reply env with
  | FetchRejects message => message
  | FetchResolves r =>
      match json r with
      | JsonRejects message => message
      | JsonResolves data =>
          match get_prop data (lit "detail") with
          | Some detail =>
              error_message_of (conversation_type_error env)
                (or_else detail (VStr (lit "Failed to load messages.")))
          | None => conversation_type_error env
          end
      end
  end.

Definition unreachable_backend : ConversationWorld :=
  mkConversationWorld (FetchRejects (lit "Failed to fetch")) (lit "TypeError") [].

(** * The rest of the page and the components around it *)

(** ** Session changes ([useEffect] of [HomePage]) *)

Definition setSession (x : option Session) (s : State) : State :=
  mkState x (messages s) (query s) (history s)
    (currentConversationId s) (isLoading s) (isLoadingHistory s)
    (isLoadingConversation s) (sidebarOpen s).

(** What awaiting a call of the auth client does: it throws, or resolves to
    [{ error }]. *)
Inductive auth_reply :=
| AuthThrows (message : jsstring)
| AuthResolves (error : option jsstring).

(** The error an auth call ends with, if any. *)
Definition auth_failure (reply : auth_reply) : option jsstring :=
  match reply with
  | AuthThrows message => Some message
  | AuthResolves error => error
  end.

(** The dialogs and the request of the password-recovery block; the block
    reads and writes no state of the page. *)
Inductive recovery_effect :=
| Prompt (text : jsstring)
| UpdateUser (password : jsstring)
| RecoveryAlert (text : jsstring).

Record AuthWorld := mkAuthWorld {
  prompt_reply : option jsstring;   (* [null] when the prompt is cancelled *)
  update_reply : auth_reply;
  auth_history_reply : select_reply
}.

(** The body of [if (_event === "PASSWORD_RECOVERY")]. *)
Definition passwordRecovery (env : AuthWorld) : list recovery_effect :=
  Prompt (lit "What would you like your new password to be?")
  :: match prompt_reply env with
     | None => []
     | Some newPassword =>
         if string_truthy newPassword then
           UpdateUser newPassword
           :: match auth_failure (update_reply env) with
              | None =>
                  [RecoveryAlert (lit "Password updated successfully! You can now log in.")]
              | Some message =>
                  [RecoveryAlert (lit "Error updating password: " ++ message)]
              end
         else []
     end.

(** The callback of [supabase.auth.onAuthStateChange]: the recovery block,
    then the state of the page.  [fetchHistory] is started without [await];
    here it runs to its end. *)
Definition onAuthStateChange (env : AuthWorld) (event : jsstring)
    (newSession : option Session) : list recovery_effect * M unit :=
  (if string_eqb event (lit "PASSWORD_RECOVERY") then passwordRecovery env else [],
   update (setSession newSession) ;;
   match newSession with
   | None =>
       update (setMessages (fun _ => [])) ;;
       update (setHistory (fun _ => [])) ;;
       update (setCurrentConversationId None)
   | Some sess =>
       fetchHistory (auth_history_reply env) (user_id sess) ;;
       ret tt
   end).

(** The callback of [supabase.auth.getSession().then(...)]. *)
Definition onSession (reply : select_reply) (newSession : option Session) : M unit :=
  update (setSession newSession) ;;
  match newSession with
  | None => ret tt
  | Some sess => fetchHistory reply (user_id sess) ;; ret tt
  end.

(** ** The text area of [ChatInput] *)

(** [s.split(sep)] for a separator of one code unit. *)
Fixpoint split_on (sep : Z) (s : jsstring) : list jsstring :=
  match s with
  | [] => [[]]
  | c :: rest =>
      match split_on sep rest with
      | [] => [[]]
      | piece :: more =>
          if c =? sep then [] :: piece :: more else (c :: piece) :: more
      end
  end.

(** The height in pixels: [Math.min(4, query.split('\n').length) * 24 + 24]. *)
Definition textarea_height (q : jsstring) : Z :=
  Z.min 4 (Z.of_nat (length (split_on 10 q))) * 24 + 24.

(** ** [ChatMessages] *)

Module ChatMessages.

(** [msg.role === 'user'] *)
Definition isUser (msg : Message) : bool :=
  match role msg with
  | VStr r => string_eqb r (lit "user")
  | _ => false
  end.

(** The [isStreaming] prop of the message at [index]. *)
Definition isStreaming (isLoading : bool) (messages : list Message)
    (index : nat) (msg : Message) : bool :=
  isLoading
  && (Z.of_nat index =? Z.of_nat (length messages) - 1)
  && is_ai msg.

(** Whether the copy button is rendered:
    [!isUser && !isStreaming && msg.content]. *)
Definition copy_button (msg : Message) (streaming : bool) : bool :=
  negb (isUser msg) && negb streaming && truthy (content msg).

Inductive copy_effect :=
| WriteText (text : jsstring)
| ResetAfter (milliseconds : Z)    (* [setTimeout(() => setIsCopied(false), ms)] *)
| CopyError (message : jsstring).

(** [handleCopy]: the new value of [isCopied] and what was done;
    [clipboard] is [None] when [writeText] resolves, the error when it
    rejects.  [writeText] takes a string: a content whose conversion throws
    makes it reject with that [TypeError], and nothing is written. *)
Definition handleCopy (type_error : jsstring) (msg : Message) (streaming : bool)
    (clipboard : option jsstring) (isCopied : bool) : bool * list copy_effect :=
  if streaming || negb (truthy (content msg)) then (isCopied, [])
  else
    match to_js_string (content msg) with
    | None => (isCopied, [CopyError type_error])
    | Some text =>
        match clipboard with
        | None => (true, [WriteText text; ResetAfter 2000])
        | Some err => (isCopied, [WriteText text; CopyError err])
        end
    end.

(** [session.user.email?.split('@')[0] || 'Researcher']; [None] is an
    email that is [undefined]. *)
Definition greeting_name (email : option jsstring) : jsstring :=
  match email with
  | None => lit "Researcher"
  | Some e =>
      match split_on 64 e with
      | piece :: _ => if string_truthy piece then piece else lit "Researcher"
      | [] => lit "Researcher"
      end
  end.

Inductive view :=
| ConversationLoader
| WelcomeScreen (name : jsstring)
| MessageList (items : list (Message * bool)).  (* each message with its [isStreaming] *)

(** The component: what it renders for its props. *)
Definition render (messages : list Message) (isLoading isLoadingConversation : bool)
    (email : option jsstring) : view :=
  if isLoadingConversation then ConversationLoader
  else if (length messages =? 0)%nat then WelcomeScreen (greeting_name email)
  else MessageList (imap (fun index msg => (msg, isStreaming isLoading messages index msg))
                      messages).

End ChatMessages.

(** [<ChatMessages messages={messages} isLoading={isLoading} ... />] in the
    page. *)
Definition render_messages (s : State) (email : option jsstring) : ChatMessages.view :=
  ChatMessages.render (messages s) (isLoading s) (isLoadingConversation s) email.

(** ** [UploaderModal] *)

Module Uploader.

Definition http_status (r : Response) : Z := status r.

(** The selected file, as far as the component looks at it. *)
Record File := mkFile {
  name : jsstring
}.

(** The three values [statusType] takes: ['info'], ['success'], ['error']. *)
Inductive StatusType := info | success | error.

(** The [useState] cells of the component and the [isOpen] cell of its
    parent, which it writes through [setIsOpen]. *)
Record UploaderState := mkUploaderState {
  file : option File;
  status : jsstring;
  isProcessing : bool;
  statusType : StatusType;
  isOpen : bool
}.

Inductive upload_effect :=
| PostUpload (url : jsstring) (fileName : jsstring)
| UploadConsoleError (message : jsstring)
| CloseModalAfter (milliseconds : Z)   (* [setTimeout(() => closeModal(), ms)] *)
| ResetFormAfter (milliseconds : Z).   (* the [setTimeout] of [closeModal] *)

Record UploadWorld := mkUploadWorld {
  upload_reply : fetch_reply;
  upload_type_error : jsstring
}.

Definition setFile (x : option File) (s : UploaderState) : UploaderState :=
  mkUploaderState x (status s) (isProcessing s) (statusType s) (isOpen s).

Definition setStatus (x : jsstring) (s : UploaderState) : UploaderState :=
  mkUploaderState (file s) x (isProcessing s) (statusType s) (isOpen s).

Definition setIsProcessing (x : bool) (s : UploaderState) : UploaderState :=
  mkUploaderState (file s) (status s) x (statusType s) (isOpen s).

Definition setStatusType (x : StatusType) (s : UploaderState) : UploaderState :=
  mkUploaderState (file s) (status s) (isProcessing s) x (isOpen s).

Definition setIsOpen (x : bool) (s : UploaderState) : UploaderState :=
  mkUploaderState (file s) (status s) (isProcessing s) (statusType s) x.

(** The callback of the timer [closeModal] sets. *)
Definition reset_form (s : UploaderState) : UploaderState :=
  setStatusType info (setStatus [] (setFile None s)).

(** [closeModal]; [render] is the state of the render the closure belongs
    to. *)
Definition closeModal (render s : UploaderState) : UploaderState * list upload_effect :=
  if isProcessing render then (s, [])
  else (setIsOpen false s, [ResetFormAfter 300]).

(** [handleFileChange]; [selected] is [e.target.files[0] || null]. *)
Definition handleFileChange (selected : option File) (s : UploaderState) : UploaderState :=
  let s1 := setFile selected s in
  match selected with
  | Some selectedFile =>
      setStatusType info (setStatus (lit "Ready to upload: " ++ name selectedFile) s1)
  | None => setStatus [] s1
  end.

Definition upload_url (userId : jsstring) : jsstring :=
  lit "https://ai-researcher-backend-tyr0.onrender.com/upload_document?user_id=" ++ userId.

(** The [try] block up to the point where the answer is known: the text of
    [result.message] in the template literal of the status line, or the
    message of the error thrown, which is a [TypeError] when [result] is
    [null] or the conversion of [result.message] or of [result.detail]
    throws. *)
Definition upload_outcome (env : UploadWorld) : result jsstring :=
  match upload_reply env with
  | FetchRejects e => Throws e
  | FetchResolves response =>
      match json response with
      | JsonRejects e => Throws e
      | JsonResolves result =>
          if negb (ok response) then
            match get_prop result (lit "detail") with
            | None => Throws (upload_type_error env)
            | Some detail =>
                Throws (error_message_of (upload_type_error env)
                          (or_else detail
                             (VStr (lit "HTTP Error "
                                    ++ number_to_string (http_status response)))))
            end
          else
            match get_prop result (lit "message") with
            | None => Throws (upload_type_error env)
            | Some message =>
                match to_js_string message with
                | None => Throws (upload_type_error env)
                | Some text => Returns text
                end
            end
      end
  end.

(** [handleUpload]; the component is rendered with [userId]. *)
Definition handleUpload (env : UploadWorld) (userId : jsstring) (s : UploaderState)
  : UploaderState * list upload_effect :=
  let refused := (setStatusType error (setStatus (lit "Please select a file.") s), []) in
  match file s with
  | None => refused
  | Some f =>
      if negb (string_truthy userId) then refused
      else
        let s1 := setIsProcessing true s in
        let s2 := setStatus (lit "Processing " ++ name f
                             ++ lit "... (this may take a moment)") s1 in
        let s3 := setStatusType info s2 in
        let request := PostUpload (upload_url userId) (name f) in
        let '(s4, log) :=
          match upload_outcome env with
          | Returns text =>
              (setFile None
                 (setStatusType success
                    (setStatus (lit "Success: " ++ text) s3)),
               [CloseModalAfter 2000])
          | Throws e =>
              (setStatusType error (setStatus (lit "Upload failed: " ++ e) s3),
               [UploadConsoleError e])
          end in
        (setIsProcessing false s4, request :: log)
  end.

(** [disabled={!file || isProcessing}] on the submit button. *)
Definition submit_disabled (s : UploaderState) : bool :=
  negb (bool_decide (is_Some (file s))) || isProcessing s.

End Uploader.

(** ** [AuthForm] *)

Module AuthForm.

Record FormState := mkFormState {
  email : jsstring;
  password : jsstring;
  authError : option jsstring;
  isLoading : bool;
  isSigningUp : bool;
  message : option jsstring
}.

Inductive auth_effect :=
| ResetPasswordForEmail (address : jsstring) (redirectTo : jsstring)
| SignUp (address : jsstring) (secret : jsstring)
| SignInWithPassword (address : jsstring) (secret : jsstring)
| AuthConsoleError (label : jsstring) (detail : jsstring).

Definition setAuthError (x : option jsstring) (s : FormState) : FormState :=
  mkFormState (email s) (password s) x (isLoading s) (isSigningUp s) (message s).

Definition setIsLoading (x : bool) (s : FormState) : FormState :=
  mkFormState (email s) (password s) (authError s) x (isSigningUp s) (message s).

Definition setIsSigningUp (x : bool) (s : FormState) : FormState :=
  mkFormState (email s) (password s) (authError s) (isLoading s) x (message s).

Definition setMessage (x : option jsstring) (s : FormState) : FormState :=
  mkFormState (email s) (password s) (authError s) (isLoading s) (isSigningUp s) x.

(** A [catch] block: [console.error(label, error.message);
    setAuthError(error.message)]. *)
Definition caught (label : jsstring) (e : jsstring) (s : FormState)
  : FormState * list auth_effect :=
  (setAuthError (Some e) s, [AuthConsoleError label e]).

(** [handlePasswordReset]; [origin] is [window.location.origin]. *)
Definition handlePasswordReset (reply : auth_reply) (origin : jsstring) (s : FormState)
  : FormState * list auth_effect :=
  let s1 := setAuthError None (setMessage None s) in
  if negb (string_truthy (email s)) then
    (setAuthError
       (Some (lit "Please enter your email address to reset your password.")) s1, [])
  else
    let s2 := setIsLoading true s1 in
    let request := ResetPasswordForEmail (email s) (origin ++ lit "/") in
    let '(s3, log) :=
      match auth_failure reply with
      | None =>
          (setMessage
             (Some (lit "Password reset link sent! Check your email (and spam folder)."))
             s2, [])
      | Some e => caught (lit "Password reset error:") e s2
      end in
    (setIsLoading false s3, request :: log).

(** [handleAuthAction] *)
Definition handleAuthAction (reply : auth_reply) (s : FormState)
  : FormState * list auth_effect :=
  let s1 := setIsLoading true (setMessage None (setAuthError None s)) in
  let request :=
    if isSigningUp s then SignUp (email s) (password s)
    else SignInWithPassword (email s) (password s) in
  let '(s3, log) :=
    match reply with
    | AuthThrows e => caught (lit "Auth error:") e s1
    | AuthResolves error =>
        let s2 :=
          if isSigningUp s then
            match error with
            | None =>
                setMessage
                  (Some (lit "Sign-up successful! Please check your email to confirm.")) s1
            | Some _ => s1
            end
          else s1 in
        match error with
        | Some e => caught (lit "Auth error:") e s2
        | None => (s2, [])
        end
    end in
  (setIsLoading false s3, request :: log).

(** The [onClick] of the button that switches between login and sign-up. *)
Definition toggle (s : FormState) : FormState :=
  setMessage None (setAuthError None (setIsSigningUp (negb (isSigningUp s)) s)).

End AuthForm.

(** ** The vocabulary of the further properties *)

(** The bytes of [hello_world], cut after every byte but the last. *)
Definition hello_world_bytewise : ResearchWorld :=
  mkResearchWorld
    (FetchResolves
       (mkResponse 200 (JsonRejects (lit "Unexpected token"))
          (Some (mkStream [[x48]; [x69]; [x20]; [x74]; [x68]; [x65]; [x72]; [x65]; []]
                   EndOfStream))))
    (history_reply hello_world) (lit "TypeError").

Definition history_down : ResearchWorld :=
  mkResearchWorld (research_reply hello_world) (SelectThrows (lit "timeout"))
    (lit "TypeError").

(** The entry [data.map] builds from one element that is not [null]. *)
Definition row_of_json (v : jsvalue) : Message :=
  mkMessage (default VUndefined (get_prop v (lit "role")))
    (default VUndefined (get_prop v (lit "content"))).

(** The rows [data.map] builds, [None] when it throws. *)
Fixpoint rows_of (items : list jsvalue) : option (list Message) :=
  match items with
  | [] => Some []
  | msg :: rest =>
      match get_prop msg (lit "role"), get_prop msg (lit "content"), rows_of rest with
      | Some r, Some c, Some rows => Some (mkMessage r c :: rows)
      | _, _, _ => None
      end
  end.

(** What the [try] block of [loadConversation] ends with: the rows to show,
    or the message of the error thrown. *)
Definition load_outcome (env : ConversationWorld) : result (list Message) :=
  match conversation_reply env with
  | FetchRejects e => Throws e
  | FetchResolves r =>
      match json r with
      | JsonRejects e => Throws e
      | JsonResolves data =>
          if ok r then
            match data with
            | VArr items =>
                match rows_of items with
                | Some rows => Returns rows
                | None => Throws (conversation_type_error env)
                end
            | _ => Throws (conversation_type_error env)
            end
          else
            match get_prop data (lit "detail") with
            | Some detail =>
                Throws (error_message_of (conversation_type_error env)
                          (or_else detail (VStr (lit "Failed to load messages."))))
            | None => Throws (conversation_type_error env)
            end
      end
  end.

Definition loaded_messages (env : ConversationWorld) : list Message :=
  match load_outcome env with
  | Returns rows => rows
  | Throws e => [load_failure e]
  end.

Definition load_log (env : ConversationWorld) : list effect :=
  match load_outcome env with
  | Returns _ => []
  | Throws e => [ConsoleError (lit "Error loading conversation:") e]
  end.

Definition stored_conversation : ConversationWorld :=
  mkConversationWorld
    (FetchResolves
       (mkResponse 200
          (JsonResolves
             (VArr [VObj [(lit "role", VStr (lit "user")); (lit "content", VStr (lit "q"))];
                    VObj [(lit "content", VStr (lit "a")); (lit "role", VStr (lit "ai"))]]))
          None))
    (lit "TypeError") [].

Definition empty_object_answer : ConversationWorld :=
  mkConversationWorld (FetchResolves (mkResponse 200 (JsonResolves (VObj [])) None))
    (lit "data.map is not a function") [].

(** The history without the conversations whose id is [cid]. *)
Definition without (cid : ConvId) (l : list Conversation) : list Conversation :=
  List.filter (fun conv => negb (id_eqb (conv_id conv) cid)) l.

Definition deleted : DeleteWorld :=
  mkDeleteWorld true (DeleteResolves None) (DeleteResolves None).

Definition messages_locked : DeleteWorld :=
  mkDeleteWorld true (DeleteThrows (lit "permission denied")) (DeleteResolves None).

Definition refreshed : AuthWorld :=
  mkAuthWorld None (AuthResolves None) (history_reply hello_world).

Definition recovering : AuthWorld :=
  mkAuthWorld (Some (lit "hunter22")) (AuthResolves (Some (lit "weak password")))
    (SelectResolves None None).

Definition uploaded : Uploader.UploadWorld :=
  Uploader.mkUploadWorld
    (FetchResolves
       (mkResponse 200 (JsonResolves (VObj [(lit "message", VStr (lit "indexed 3 pages"))]))
          None))
    (lit "TypeError").

(** A 2xx answer whose [message] is [{"toString":1}]. *)
Definition unprintable_message : Uploader.UploadWorld :=
  Uploader.mkUploadWorld
    (FetchResolves
       (mkResponse 200
          (JsonResolves
             (VObj [(lit "message", VObj [(lit "toString", VNum true (lit "1"))])]))
          None))
    (lit "Cannot convert object to primitive value").

Definition picked : Uploader.UploaderState :=
  Uploader.handleFileChange (Some (Uploader.mkFile (lit "paper.pdf")))
    (Uploader.mkUploaderState None [] false Uploader.info true).

(** * Properties *)

(** ** The model on examples *)

Example decode_ascii :
  utf8_decode [x48; x69] = lit "Hi".
Proof. reflexivity. Qed.

(* U+20AC, the euro sign, split over three chunks *)
Example decode_split_euro :
  snd (decode_chunks new_TextDecoder [] [[xe2]; [x82]; [xac; x21]])
  = utf8_decode [xe2; x82; xac; x21].
Proof. reflexivity. Qed.

Example decode_euro_value :
  utf8_decode [xe2; x82; xac; x21] = [8364; 33].
Proof. reflexivity. Qed.

(* U+1F600 becomes a surrogate pair *)
Example decode_astral :
  utf8_decode [xf0; x9f; x98; x80] = [55357; 56832].
Proof. reflexivity. Qed.

(* an overlong or stray byte is replaced, and a byte that interrupts a
   sequence is read again *)
Example decode_interrupted :
  utf8_decode [xe2; x41; xc0; xef; xbb; xbf] = [65533; 65; 65533; 65279].
Proof. reflexivity. Qed.

Example decode_bom_dropped :
  utf8_decode [xef; xbb; xbf; x41] = lit "A".
Proof. reflexivity. Qed.

Example to_js_string_own_toString :
  to_js_string (VObj [(lit "toString", VStr (lit "x"))]) = None
  /\ to_js_string (VArr [VStr (lit "a"); VObj [(lit "toString", VNull)]]) = None
  /\ to_js_string (VObj [(lit "valueOf", VStr (lit "x"))]) = Some (lit "[object Object]")
  /\ to_js_string (VNum true (lit "1e+21")) = Some (lit "1e+21").
Proof. repeat split. Qed.

Example to_js_string_array :
  to_js_string (VArr [VNum true (lit "1"); VNull; VStr (lit "a"); VObj []])
  = Some (lit "1,,a,[object Object]").
Proof. reflexivity. Qed.

Example scenario_hello_messages :
  messages (state_after (handleResearch hello_world) (signed_in (lit "hello")))
  = [user_message (lit "hello"); ai_message (lit "Hi there")].
Proof. reflexivity. Qed.

Example scenario_hello_conversation :
  currentConversationId (state_after (handleResearch hello_world) (signed_in (lit "hello")))
  = Some (IdNum 7).
Proof. reflexivity. Qed.

Example scenario_hello_trace :
  trace_of (handleResearch hello_world) (signed_in (lit "hello"))
  = [PostResearch (lit "hello") (lit "u1") None; SelectConversations (lit "u1")].
Proof. reflexivity. Qed.

Example scenario_load_42 :
  messages
    (state_after
       (loadConversation
          (mkConversationWorld
             (FetchResolves
                (mkResponse 200
                   (JsonResolves
                      (VArr [VObj [(lit "role", VStr (lit "user")); (lit "content", VStr (lit "q"))];
                             VObj [(lit "role", VStr (lit "ai")); (lit "content", VStr (lit "a"))]]))
                   None))
             (lit "TypeError") [])
          (Some (IdStr (lit "42"))))
       (signed_in []))
  = [user_message (lit "q"); ai_message (lit "a")].
Proof. reflexivity. Qed.

(* a numeric id beyond 2^53: the URL carries the digits the engine prints *)
Example scenario_large_id :
  trace_of
    (loadConversation
       (mkConversationWorld (FetchRejects (lit "Failed to fetch")) (lit "TypeError")
          (lit "1152921504606847000"))
       (Some (IdNum (2 ^ 60))))
    two_chats
  = [GetConversation
       (lit "https://ai-researcher-backend-tyr0.onrender.com/conversation/1152921504606847000");
     ConsoleError (lit "Error loading conversation:") (lit "Failed to fetch")].
Proof. reflexivity. Qed.

(* a 404 whose body is no JSON: the status is what the user reads *)
Example scenario_not_found :
  messages
    (state_after
       (handleResearch
          (mkResearchWorld
             (FetchResolves (mkResponse 404 (JsonRejects (lit "Unexpected token")) None))
             (SelectResolves None None) (lit "TypeError")))
       two_chats_asking)
  = [user_message (lit "and then?");
     ai_message (lit "Error: HTTP error! status: 404" ++ [10; 10]
                 ++ lit "There was an issue connecting to the AI service.")].
Proof. reflexivity. Qed.

(* a read that fails after the first chunk: the error replaces the partial
   answer *)
Example scenario_read_fails :
  messages
    (state_after
       (handleResearch
          (mkResearchWorld
             (FetchResolves
                (mkResponse 200 (JsonRejects (lit "Unexpected token"))
                   (Some (mkStream [[x48; x69]] (ReadFails (lit "network error"))))))
             (SelectResolves None None) (lit "TypeError")))
       two_chats_asking)
  = [user_message (lit "and then?");
     ai_message (lit "Error: network error" ++ [10; 10]
                 ++ lit "There was an issue connecting to the AI service.")].
Proof. reflexivity. Qed.

(* a 500 whose detail cannot be converted: [new Error(errorBody)] throws
   the TypeError, and its message is what the user reads *)
Example scenario_unprintable_detail :
  messages (state_after (handleResearch unprintable_detail) two_chats_asking)
  = [user_message (lit "and then?");
     ai_message (lit "Error: Cannot convert object to primitive value" ++ [10; 10]
                 ++ lit "There was an issue connecting to the AI service.")].
Proof. reflexivity. Qed.

(* a 2xx upload answer whose message cannot be converted: the template
   literal of the status line throws, the catch block runs, the file is
   kept and no close is scheduled *)
Example scenario_unprintable_message :
  Uploader.handleUpload unprintable_message (lit "u1") picked
  = (Uploader.mkUploaderState (Some (Uploader.mkFile (lit "paper.pdf")))
       (lit "Upload failed: Cannot convert object to primitive value")
       false Uploader.error true,
     [Uploader.PostUpload (Uploader.upload_url (lit "u1")) (lit "paper.pdf");
      Uploader.UploadConsoleError (lit "Cannot convert object to primitive value")]).
Proof. reflexivity. Qed.

(* deleting the active conversation: both deletes succeed, the entry goes
   and a new chat starts *)
Example scenario_delete :
  run (handleDeleteConversation
         (mkDeleteWorld true (DeleteResolves None) (DeleteResolves None)) (IdNum 7))
    two_chats
  = (Returns tt,
     mkWorld
       (mkState (Some (mkSession (lit "u1"))) [] []
          [mkConversation (IdNum 3) (lit "older") (lit "2025-01-01")]
          None false false false false)
       [Confirm (lit "Are you sure you want to delete the chat: " ++ [34] ++ lit "hello"
                 ++ [34] ++ lit "?");
        DeleteMessages (IdNum 7); DeleteConversation (IdNum 7)]).
Proof. reflexivity. Qed.

(** ** The decoder along chunk boundaries *)

Lemma process_app d a b :
  Utf8.process d (a ++ b)
  = let '(d1, out1) := Utf8.process d a in
    let '(d2, out2) := Utf8.process d1 b in
    (d2, out1 ++ out2).
Proof.
  revert d. induction a as [|x a IH]; intros d; simpl.
  - destruct (Utf8.process d b); reflexivity.
  - destruct (Utf8.process_byte d x) as [d1 o1].
    rewrite IH.
    destruct (Utf8.process d1 a) as [d2 o2].
    destruct (Utf8.process d2 b) as [d3 o3].
    rewrite app_assoc. reflexivity.
Qed.

Lemma serialize_true scalars :
  Utf8.serialize true scalars = (true, concat (map Utf8.utf16 scalars)).
Proof.
  induction scalars as [|c rest IH]; simpl; [reflexivity|].
  rewrite IH. reflexivity.
Qed.

Lemma serialize_cons seen c rest :
  Utf8.serialize seen (c :: rest)
  = (true, (if negb seen && (c =? 65279) then [] else Utf8.utf16 c)
           ++ concat (map Utf8.utf16 rest)).
Proof.
  simpl. rewrite serialize_true.
  destruct (negb seen && (c =? 65279)); reflexivity.
Qed.

Lemma serialize_app seen a b :
  Utf8.serialize seen (a ++ b)
  = let '(s1, out1) := Utf8.serialize seen a in
    let '(s2, out2) := Utf8.serialize s1 b in
    (s2, out1 ++ out2).
Proof.
  destruct a as [|x a].
  - simpl. destruct (Utf8.serialize seen b); reflexivity.
  - rewrite <- app_comm_cons, !serialize_cons, serialize_true.
    rewrite map_app, concat_app, app_assoc. reflexivity.
Qed.

Lemma decode_stream td value :
  streaming td ->
  decode td value true
  = let '(d1, out) := Utf8.process (td_decoder td) (map byte_value value) in
    let '(seen, text) := Utf8.serialize (td_bom_seen td) out in
    (mkTextDecoder d1 seen true, text).
Proof.
  intros Hs. unfold decode.
  assert (Htd : td_decoder (if td_do_not_flush td then td
                            else mkTextDecoder Utf8.initial false false) = td_decoder td
                /\ td_bom_seen (if td_do_not_flush td then td
                            else mkTextDecoder Utf8.initial false false) = td_bom_seen td).
  { destruct Hs as [-> | ->]; split; reflexivity. }
  destruct Htd as [-> ->].
  destruct (Utf8.process (td_decoder td) (map byte_value value)) as [d1 out].
  rewrite app_nil_r. reflexivity.
Qed.

(** The text a run of streaming calls produces is the text of one streaming
    call on the concatenated bytes. *)
Lemma decode_chunks_concat td acc chunks :
  streaming td ->
  decode_chunks td acc chunks
  = let '(d1, out) := Utf8.process (td_decoder td) (map byte_value (concat chunks)) in
    let '(seen, text) := Utf8.serialize (td_bom_seen td) out in
    (match chunks with
     | [] => td
     | _ :: _ => mkTextDecoder d1 seen true
     end, acc ++ text).
Proof.
  intros Hs. revert td acc Hs.
  induction chunks as [|value rest IH]; intros td acc Hs.
  - simpl. rewrite app_nil_r. reflexivity.
  - simpl decode_chunks. rewrite (decode_stream td value Hs).
    simpl concat. rewrite map_app, process_app.
    destruct (Utf8.process (td_decoder td) (map byte_value value)) as [d1 out1].
    destruct (Utf8.serialize (td_bom_seen td) out1) as [seen1 text1] eqn:Hser1.
    rewrite IH by (left; reflexivity). simpl td_decoder. simpl td_bom_seen.
    destruct (Utf8.process d1 (map byte_value (concat rest))) as [d2 out2] eqn:Hp.
    rewrite serialize_app, Hser1.
    destruct (Utf8.serialize seen1 out2) as [seen2 text2] eqn:Hser2.
    rewrite app_assoc.
    destruct rest as [|v rest']; [|reflexivity].
    simpl in Hp. injection Hp as <- <-.
    simpl in Hser2. injection Hser2 as <- <-. reflexivity.
Qed.

Lemma utf8_decode_concat chunks :
  utf8_decode (concat chunks)
  = snd (decode_chunks new_TextDecoder [] chunks)
    ++ pending_replacement (fst (decode_chunks new_TextDecoder [] chunks)).
Proof.
  rewrite decode_chunks_concat by (right; reflexivity).
  unfold utf8_decode, decode, pending_replacement. simpl td_do_not_flush.
  cbv iota. simpl td_decoder. simpl td_bom_seen.
  destruct (Utf8.process Utf8.initial (map byte_value (concat chunks))) as [d1 out] eqn:Hp.
  assert (Hd : forall seen, td_decoder (match chunks with
                                        | [] => new_TextDecoder
                                        | _ :: _ => mkTextDecoder d1 seen true
                                        end) = d1).
  { intros seen. destruct chunks; [|reflexivity].
    simpl in Hp. injection Hp as <- <-. reflexivity. }
  unfold Utf8.handler_end.
  destruct (Utf8.bytes_needed d1 =? 0) eqn:Hn; simpl negb; cbv iota; simpl Utf8.emitted.
  - rewrite app_nil_r.
    destruct (Utf8.serialize false out) as [seen text].
    simpl fst. simpl snd. rewrite Hd, Hn, app_nil_r. reflexivity.
  - rewrite serialize_app.
    destruct (Utf8.serialize false out) as [seen text].
    simpl fst. simpl snd. rewrite Hd, Hn.
    destruct seen; reflexivity.
Qed.

(** ** The message list under the updaters *)

Lemma is_ai_ai_message text : is_ai (ai_message text) = true.
Proof. reflexivity. Qed.

Lemma is_ai_user_message text : is_ai (user_message text) = false.
Proof. reflexivity. Qed.

Lemma stream_update_last pre x text :
  stream_update text (pre ++ [ai_message x]) = pre ++ [ai_message text].
Proof.
  unfold stream_update. rewrite length_app. simpl length.
  rewrite bool_decide_eq_true_2 by lia.
  replace (length pre + 1 - 1)%nat with (length pre) by lia.
  rewrite list_lookup_middle by reflexivity.
  rewrite is_ai_ai_message.
  replace (length pre) with (length pre + 0)%nat at 1 by lia.
  rewrite insert_app_r. reflexivity.
Qed.

Lemma error_update_last pre x m :
  error_update m (pre ++ [ai_message x]) = pre ++ [m].
Proof.
  unfold error_update. rewrite length_app. simpl length.
  replace (Z.of_nat (length pre + 1) - 1) with (Z.of_nat (length pre)) by lia.
  rewrite Nat2Z.id, list_lookup_middle by reflexivity.
  rewrite is_ai_ai_message.
  replace (0 <=? Z.of_nat (length pre)) with true by (symmetry; apply Z.leb_le; lia).
  simpl. rewrite take_app_length. reflexivity.
Qed.

(** ** What a send does *)

Lemma read_loop_run pending e td acc w pre :
  messages (ui w) = pre ++ [ai_message acc] ->
  read_loop pending e td acc w
  = (end_result e,
     mkWorld
       (setMessages (fun _ => pre ++ [ai_message (snd (decode_chunks td acc pending))]) (ui w))
       (trace w)).
Proof.
  revert td acc w. induction pending as [|value rest IH]; intros td acc w Hm.
  - simpl. destruct w as [[] tr]. simpl in Hm. subst.
    destruct e; reflexivity.
  - simpl. destruct (decode td value true) as [td1 chunk].
    unfold bind, update at 1.
    rewrite (IH td1 (acc ++ chunk) _).
    + reflexivity.
    + simpl. rewrite Hm. apply stream_update_last.
Qed.

Lemma research_catch_run message w pre x :
  messages (ui w) = pre ++ [ai_message x] ->
  research_catch message w
  = (Returns tt,
     mkWorld (setMessages (fun _ => pre ++ [research_error message]) (ui w))
       (trace w ++ [ConsoleError (lit "Error fetching research:") message])).
Proof.
  intros Hm. unfold research_catch, bind, emit, update. simpl.
  unfold setMessages at 1. simpl. rewrite Hm, error_update_last. reflexivity.
Qed.

Lemma research_try_catch env render sess w pre :
  messages (ui w) = pre ++ [ai_message []] ->
  try_catch (research_try env render sess) research_catch w
  = (Returns tt,
     mkWorld (setMessages (fun _ => pre ++ [final_entry env]) (ui w))
       (trace w
        ++ PostResearch (query render) (user_id sess) (currentConversationId render)
           :: failure_log env)).
Proof.
  intros Hm.
  unfold final_entry, failure_log, research_failure, received_chunks.
  unfold try_catch at 1, research_try, fetch, bind at 1 2, emit at 1.
  destruct (research_reply env) as [message|r].
  - unfold throw. erewrite research_catch_run by exact Hm.
    simpl. rewrite <- app_assoc. reflexivity.
  - unfold ret at 1. destruct (ok r); cbn [negb].
    + destruct (body r) as [stream|].
      * erewrite read_loop_run by (simpl; exact Hm).
        destruct (ending stream) as [|message]; cbn [end_result].
        -- reflexivity.
        -- erewrite research_catch_run by reflexivity.
           simpl. rewrite <- app_assoc. reflexivity.
      * unfold throw. erewrite research_catch_run by exact Hm.
        simpl. rewrite <- app_assoc. reflexivity.
    + unfold http_error_message, response_json, prop.
      assert (Hthrow : forall v w0,
                 bind (try_catch
                         (bind match json r with
                               | JsonRejects e => throw e
                               | JsonResolves v => ret v
                               end
                            (fun errJson =>
                               bind match get_prop errJson (lit "detail") with
                                    | Some x => ret x
                                    | None => throw (research_type_error env)
                                    end
                                 (fun detail => ret (or_else detail v))))
                         (fun _ => ret v))
                   (fun errorBody1 =>
                      throw (error_message_of (research_type_error env) errorBody1)) w0
                 = (Throws (A:=unit)
                      (error_message_of (research_type_error env)
                         match json r with
                         | JsonRejects _ => v
                         | JsonResolves errJson =>
                             match get_prop errJson (lit "detail") with
                             | Some detail => or_else detail v
                             | None => v
                             end
                         end), w0)).
      { intros v w0. unfold bind, try_catch, throw, ret.
        destruct (json r) as [e|errJson]; [reflexivity|].
        destruct (get_prop errJson (lit "detail")); reflexivity. }
      rewrite Hthrow. erewrite research_catch_run by exact Hm.
      simpl. rewrite <- app_assoc. reflexivity.
Qed.

Lemma fetchHistory_run reply userId w :
  string_truthy userId = true ->
  fetchHistory reply userId w
  = (Returns (fetched_value reply),
     mkWorld (setIsLoadingHistory false (setHistory (fun _ => refetched reply) (ui w)))
       (trace w ++ history_log reply userId)).
Proof.
  intros Hu. unfold fetchHistory. rewrite Hu. cbn [negb].
  unfold history_log.
  destruct reply as [message|data [message|]]; cbn; rewrite <- ?app_assoc; reflexivity.
Qed.

Lemma fetchHistory_skipped reply userId w :
  string_truthy userId = false ->
  fetchHistory reply userId w = (Returns None, w).
Proof. intros Hu. unfold fetchHistory. rewrite Hu. reflexivity. Qed.

Lemma research_finally_run env isNewChat sess w :
  research_finally env isNewChat sess w
  = (Returns tt,
     mkWorld (finally_state env isNewChat sess (ui w))
       (trace w ++ resync_log env isNewChat sess)).
Proof.
  unfold research_finally, finally_state, resync_log, resyncs.
  unfold bind at 1, update at 1.
  destruct isNewChat; cbn [andb].
  - destruct (string_truthy (user_id sess)) eqn:Hu.
    + unfold bind. rewrite fetchHistory_run by exact Hu.
      destruct (history_reply env) as [message|[[|c l]|] [message|]]; reflexivity.
    + unfold bind. rewrite fetchHistory_skipped by exact Hu.
      cbn. rewrite app_nil_r. reflexivity.
  - cbn. rewrite app_nil_r. reflexivity.
Qed.

(** A send that passes the guard: the whole run. *)
Lemma handleResearch_run env s sess :
  session s = Some sess ->
  send_blocked s = false ->
  run (handleResearch env) s
  = (Returns tt,
     mkWorld (finally_state env (isNewChat_of s) sess (settled env s))
       (PostResearch (query s) (user_id sess) (currentConversationId s)
        :: failure_log env ++ resync_log env (isNewChat_of s) sess)).
Proof.
  intros Hs Hb.
  unfold run, handleResearch, with_render. cbn [ui]. rewrite Hs, Hb.
  unfold bind at 1 2 3 4, update at 1 2 3 4. cbn [ui trace].
  unfold try_finally.
  erewrite research_try_catch
    with (pre := messages s ++ [user_message (query s)]) by reflexivity.
  rewrite research_finally_run. cbn [ui trace].
  unfold settled, isNewChat_of. cbn. rewrite <- app_assoc. reflexivity.
Qed.

(** A send that the guard refuses: nothing happens. *)
Lemma handleResearch_blocked env s :
  send_blocked s = true ->
  run (handleResearch env) s = (Returns tt, mkWorld s []).
Proof.
  intros Hb. unfold run, handleResearch, with_render. cbn [ui].
  rewrite Hb. destruct (session s); reflexivity.
Qed.

Lemma send_blocked_false s :
  send_blocked s = false ->
  exists sess, session s = Some sess
               /\ string_truthy (query s) = true /\ isLoading s = false.
Proof.
  unfold send_blocked. intros Hb.
  destruct (session s) as [sess|]; [|discriminate].
  exists sess. cbn in Hb.
  destruct (string_truthy (query s)), (isLoading s); try discriminate.
  repeat split.
Qed.

Lemma finally_state_messages env isNewChat sess s :
  messages (finally_state env isNewChat sess s) = messages s.
Proof. unfold finally_state. destruct (resyncs isNewChat sess); reflexivity. Qed.

Lemma finally_state_isLoading env isNewChat sess s :
  isLoading (finally_state env isNewChat sess s) = false.
Proof. unfold finally_state. destruct (resyncs isNewChat sess); reflexivity. Qed.

(** The messages after a send that passed the guard. *)
Lemma handleResearch_messages env s :
  send_blocked s = false ->
  messages (state_after (handleResearch env) s)
  = messages s ++ [user_message (query s); final_entry env].
Proof.
  intros Hb. destruct (send_blocked_false s Hb) as (sess & Hs & _).
  unfold state_after. rewrite (handleResearch_run env s sess Hs Hb).
  cbn [snd ui]. apply finally_state_messages.
Qed.

(** ** The streamed text and the UTF-8 decoding of the whole stream *)

(** When the stream is read to its end, the last entry holds what the
    streaming calls produced, chunk after chunk. *)
Lemma handleResearch_streamed env s r stream :
  send_blocked s = false ->
  research_reply env = FetchResolves r ->
  ok r = true ->
  body r = Some stream ->
  ending stream = EndOfStream ->
  last (messages (state_after (handleResearch env) s))
  = Some (ai_message (snd (decode_chunks new_TextDecoder [] (chunks stream)))).
Proof.
  intros Hb Hr Hok Hbody Hend.
  rewrite handleResearch_messages by exact Hb.
  unfold final_entry, research_failure, received_chunks.
  rewrite Hr, Hok, Hbody, Hend.
  change (messages s ++ [user_message (query s); ?m])
    with (messages s ++ [user_message (query s)] ++ [m]).
  rewrite app_assoc. apply last_snoc.
Qed.

(** That text is the UTF-8 decoding of the concatenated chunks whenever the
    stream does not stop inside a multi-byte sequence. *)
Lemma handleResearch_streamed_complete env s r stream :
  send_blocked s = false ->
  research_reply env = FetchResolves r ->
  ok r = true ->
  body r = Some stream ->
  ending stream = EndOfStream ->
  Utf8.bytes_needed
    (fst (Utf8.process Utf8.initial (map byte_value (concat (chunks stream))))) = 0 ->
  last (messages (state_after (handleResearch env) s))
  = Some (ai_message (utf8_decode (concat (chunks stream)))).
Proof.
  intros Hb Hr Hok Hbody Hend Hn.
  rewrite (handleResearch_streamed env s r stream) by assumption.
  rewrite utf8_decode_concat.
  assert (Hp : pending_replacement (fst (decode_chunks new_TextDecoder [] (chunks stream))) = []).
  { unfold pending_replacement.
    rewrite decode_chunks_concat by (right; reflexivity).
    cbn [td_decoder td_bom_seen new_TextDecoder].
    destruct (Utf8.process Utf8.initial (map byte_value (concat (chunks stream))))
      as [d1 out] eqn:Hproc.
    destruct (Utf8.serialize false out) as [seen text]. cbn [fst] in *.
    destruct (chunks stream) as [|c cs].
    - reflexivity.
    - cbn [td_decoder]. rewrite Hn. reflexivity. }
  rewrite Hp, app_nil_r. reflexivity.
Qed.

(** C1.  For every sequence of chunks the final content of the trailing ai
    entry should be the UTF-8 decoding of the concatenated chunks.  On a
    stream that ends inside a multi-byte character the read loop leaves
    [caf]: it never makes the final, non-streaming [decode] call that
    flushes the decoder, so the pending byte is dropped, whereas the
    UTF-8 decoding of the four bytes is [caf] followed by U+FFFD. *)
Theorem handleResearch_drops_pending_bytes :
  last (messages (state_after (handleResearch truncated_world) (signed_in (lit "hello"))))
  = Some (ai_message (lit "caf"))
  /\ utf8_decode (concat (chunks truncated_stream)) = lit "caf" ++ [65533]
  /\ ai_message (lit "caf")
     <> ai_message (utf8_decode (concat (chunks truncated_stream))).
Proof.
  split; [reflexivity|]. split; [reflexivity|].
  intros H. discriminate H.
Qed.

(** ** The chunk transition *)

(** C9.  The updater of the read loop keeps the length of the sequence and
    every entry but the last, and leaves the whole sequence alone when it is
    empty or its last entry is not an ai entry; it never appends. *)
Theorem stream_update_frame (text : jsstring) (prev : list Message) :
  length (stream_update text prev) = length prev
  /\ (forall i, i <> (length prev - 1)%nat -> stream_update text prev !! i = prev !! i)
  /\ (forall m, last prev = Some m -> is_ai m = false -> stream_update text prev = prev)
  /\ (forall m, last prev = Some m -> is_ai m = true ->
      last (stream_update text prev) = Some (ai_message text))
  /\ (prev = [] -> stream_update text prev = []).
Proof.
  unfold stream_update. rewrite last_lookup.
  replace (Init.Nat.pred (length prev)) with (length prev - 1)%nat by lia.
  repeat split.
  - case_bool_decide; [|reflexivity].
    destruct (prev !! (length prev - 1)%nat) as [m|]; [|reflexivity].
    destruct (is_ai m); [apply length_insert|reflexivity].
  - intros i Hi. case_bool_decide; [|reflexivity].
    destruct (prev !! (length prev - 1)%nat) as [m|]; [|reflexivity].
    destruct (is_ai m); [|reflexivity].
    apply list_lookup_insert_ne. congruence.
  - intros m Hm Hai. case_bool_decide; [|reflexivity].
    rewrite Hm, Hai. reflexivity.
  - intros m Hm Hai. rewrite Hm, Hai.
    case_bool_decide as Hlen.
    + rewrite last_lookup, length_insert.
      replace (Init.Nat.pred (length prev)) with (length prev - 1)%nat by lia.
      apply list_lookup_insert_eq. lia.
    + apply lookup_lt_Some in Hm. lia.
  - intros ->. reflexivity.
Qed.

(** ** No two ai entries in a row *)

Lemma consecutive_ai_send l u a :
  is_ai u = false ->
  consecutive_ai (l ++ [u; a]) = consecutive_ai l.
Proof.
  intros Hu. induction l as [|x l IH].
  - simpl. rewrite Hu. reflexivity.
  - destruct l as [|y l].
    + simpl. rewrite Hu, andb_false_r. reflexivity.
    + change (consecutive_ai ((x :: y :: l) ++ [u; a]))
        with ((is_ai x && is_ai y) || consecutive_ai ((y :: l) ++ [u; a])).
      rewrite IH. reflexivity.
Qed.

Lemma consecutive_ai_false (l : list Message) :
  consecutive_ai l = false
  <-> forall i m1 m2,
        l !! i = Some m1 -> l !! S i = Some m2 -> is_ai m1 && is_ai m2 = false.
Proof.
  induction l as [|x l IH].
  - split; [intros _ i m1 m2 H; discriminate H|reflexivity].
  - destruct l as [|y l].
    + split; [|reflexivity]. intros _ i m1 m2 _ H.
      destruct i; discriminate H.
    + change (consecutive_ai (x :: y :: l))
        with ((is_ai x && is_ai y) || consecutive_ai (y :: l)).
      rewrite orb_false_iff, IH. split.
      * intros [Hxy Hrest] [|i] m1 m2 H1 H2.
        -- simpl in H1, H2. injection H1 as <-. injection H2 as <-. exact Hxy.
        -- apply (Hrest i m1 m2); assumption.
      * intros H. split.
        -- apply (H 0%nat x y); reflexivity.
        -- intros i m1 m2 H1 H2. apply (H (S i) m1 m2); assumption.
Qed.

(** C2.  If the message sequence has no two consecutive ai entries before a
    call of [handleResearch], it has none after it, whatever the outside
    world replies: the stream is read to its end, [fetch] rejects, the
    status is not 2xx, the body is missing or a read fails, or the guard
    refuses the send. *)
Theorem handleResearch_no_consecutive_ai (env : ResearchWorld) (s : State) :
  consecutive_ai (messages s) = false ->
  consecutive_ai (messages (state_after (handleResearch env) s)) = false.
Proof.
  intros Hc. destruct (send_blocked s) eqn:Hb.
  - unfold state_after. rewrite handleResearch_blocked by exact Hb. exact Hc.
  - rewrite handleResearch_messages by exact Hb.
    rewrite consecutive_ai_send by reflexivity. exact Hc.
Qed.

Lemma handleResearch_no_consecutive_ai_witness :
  consecutive_ai
    (messages (state_after (handleResearch truncated_world)
                 (setMessages (fun _ => [user_message (lit "q"); ai_message (lit "a")])
                    (signed_in (lit "hello")))))
  = false.
Proof. apply handleResearch_no_consecutive_ai. reflexivity. Defined.

(** ** Deleting a conversation *)

Lemma await_delete_run request reply w :
  await_delete request reply w
  = (match delete_failure reply with
     | Some message => Throws message
     | None => Returns tt
     end, mkWorld (ui w) (trace w ++ [request])).
Proof. destruct reply as [|[|]]; reflexivity. Qed.

Lemma find_conversation cid (l : list Conversation) :
  In cid (map conv_id l) ->
  exists conv, List.find (fun conv => id_eqb (conv_id conv) cid) l = Some conv.
Proof.
  induction l as [|c l IH]; simpl; [tauto|].
  intros [Hc | Hin].
  - exists c. unfold id_eqb. rewrite bool_decide_eq_true_2 by exact Hc. reflexivity.
  - destruct (id_eqb (conv_id c) cid); eauto.
Qed.

Lemma handleDeleteConversation_declined env s cid conv :
  List.find (fun conv => id_eqb (conv_id conv) cid) (history s) = Some conv ->
  confirm_reply env = false ->
  run (handleDeleteConversation env cid) s
  = (Returns tt, mkWorld s [Confirm (confirm_text conv)]).
Proof.
  intros Hfind Hc. unfold run, handleDeleteConversation, with_render.
  cbn [ui]. rewrite Hfind, Hc. reflexivity.
Qed.

Lemma handleDeleteConversation_half_done env s cid conv message :
  List.find (fun conv => id_eqb (conv_id conv) cid) (history s) = Some conv ->
  confirm_reply env = true ->
  delete_failure (messages_delete_reply env) = None ->
  delete_failure (conversation_delete_reply env) = Some message ->
  run (handleDeleteConversation env cid) s
  = (Returns tt,
     mkWorld s
       [Confirm (confirm_text conv); DeleteMessages cid; DeleteConversation cid;
        ConsoleError (lit "Error deleting conversation:") message;
        Alert (lit "Failed to delete chat: " ++ message)]).
Proof.
  intros Hfind Hc Hmsg Hconv. unfold run, handleDeleteConversation, with_render.
  cbn [ui]. rewrite Hfind, Hc. cbn [negb].
  unfold bind at 1, emit at 1. cbn [ui trace].
  unfold try_catch, bind at 1.
  rewrite await_delete_run, Hmsg. unfold bind at 1.
  rewrite await_delete_run, Hconv. reflexivity.
Qed.

(** C3.  For a conversation id of the local history: when the delete of the
    message rows is issued and succeeds and the delete of the conversation
    row fails, the history (indeed the whole state) is what it was, and the
    user is shown an alert with the error. *)
Theorem handleDeleteConversation_partial_failure
    (env : DeleteWorld) (s : State) (cid : ConvId) (message : jsstring) :
  In cid (map conv_id (history s)) ->
  In (DeleteMessages cid) (trace_of (handleDeleteConversation env cid) s) ->
  delete_failure (messages_delete_reply env) = None ->
  delete_failure (conversation_delete_reply env) = Some message ->
  history (state_after (handleDeleteConversation env cid) s) = history s
  /\ state_after (handleDeleteConversation env cid) s = s
  /\ In (DeleteConversation cid) (trace_of (handleDeleteConversation env cid) s)
  /\ In (Alert (lit "Failed to delete chat: " ++ message))
       (trace_of (handleDeleteConversation env cid) s).
Proof.
  intros Hin Hissued Hmsg Hconv.
  destruct (find_conversation cid (history s) Hin) as [conv Hfind].
  unfold state_after, trace_of in *.
  destruct (confirm_reply env) eqn:Hc.
  - rewrite (handleDeleteConversation_half_done env s cid conv message) by assumption.
    cbn [snd ui trace]. repeat split; simpl; auto 10.
  - rewrite (handleDeleteConversation_declined env s cid conv) in Hissued by assumption.
    cbn [snd trace] in Hissued. destruct Hissued as [H | []]. discriminate H.
Qed.

Lemma handleDeleteConversation_partial_failure_witness :
  history (state_after (handleDeleteConversation half_deleted (IdNum 7)) two_chats)
  = history two_chats
  /\ state_after (handleDeleteConversation half_deleted (IdNum 7)) two_chats = two_chats
  /\ In (DeleteConversation (IdNum 7))
       (trace_of (handleDeleteConversation half_deleted (IdNum 7)) two_chats)
  /\ In (Alert (lit "Failed to delete chat: " ++ lit "permission denied"))
       (trace_of (handleDeleteConversation half_deleted (IdNum 7)) two_chats).
Proof.
  apply handleDeleteConversation_partial_failure.
  - simpl. left. reflexivity.
  - vm_compute. right. left. reflexivity.
  - reflexivity.
  - reflexivity.
Defined.

(** ** The busy flag *)

(** C5.  From a state in which no send is in flight, [isLoading] is false
    when [handleResearch] is done, whatever the outside world replies: the
    stream is read to its end, the status is not 2xx, [fetch] rejects, the
    body is missing, a read fails, the history select fails.  (A call made
    while a send is in flight is refused by the guard and leaves the flag to
    that send.)  A send that passes the guard raises the flag before its
    [try] block starts, and it is the [finally] block that clears it: put
    after any computation at all, one that returns or one that throws, from
    any state, the [finally] block ends with [isLoading] false. *)
Theorem handleResearch_clears_isLoading (env : ResearchWorld) (s : State) :
  (isLoading s = false -> isLoading (state_after (handleResearch env) s) = false)
  /\ forall sess,
       session s = Some sess ->
       send_blocked s = false ->
       isLoading (sending s) = true
       /\ run (handleResearch env) s
          = try_finally
              (try_catch (research_try env s sess) research_catch)
              (research_finally env (isNewChat_of s) sess)
              (mkWorld (sending s) [])
       /\ (forall (attempt : M unit) (w : World),
             isLoading
               (ui (snd (try_finally attempt
                           (research_finally env (isNewChat_of s) sess) w)))
             = false)
       /\ isLoading (state_after (handleResearch env) s) = false.
Proof.
  assert (Hsend : forall sess, session s = Some sess -> send_blocked s = false ->
                    isLoading (state_after (handleResearch env) s) = false).
  { intros sess Hs Hb. unfold state_after. rewrite (handleResearch_run env s sess Hs Hb).
    cbn [snd ui]. apply finally_state_isLoading. }
  split.
  - intros Hidle. case_eq (send_blocked s); intros Hb.
    + unfold state_after. rewrite handleResearch_blocked by exact Hb. exact Hidle.
    + destruct (send_blocked_false s Hb) as (sess & Hs & _). exact (Hsend sess Hs Hb).
  - intros sess Hs Hb. split; [reflexivity|]. split; [|split].
    + unfold run, handleResearch, with_render. cbn [ui]. rewrite Hs, Hb. reflexivity.
    + intros attempt w. unfold try_finally.
      destruct (attempt w) as [r w1]. rewrite research_finally_run.
      cbn [snd ui]. apply finally_state_isLoading.
    + exact (Hsend sess Hs Hb).
Qed.

Lemma handleResearch_clears_isLoading_witness :
  isLoading (sending (signed_in (lit "hello"))) = true
  /\ isLoading (state_after (handleResearch offline_world) (signed_in (lit "hello"))) = false.
Proof.
  destruct (proj2 (handleResearch_clears_isLoading offline_world (signed_in (lit "hello")))
              (mkSession (lit "u1")) eq_refl eq_refl) as (Hraised & _ & _ & Hcleared).
  split; [exact Hraised|exact Hcleared].
Defined.

(** ** The error path of a send *)

(** The error of a send that fails before streaming: the message of the
    rejection, or what the body of the answer makes of it. *)
Lemma fetch_failed_failure env :
  fetch_failed (research_reply env) = true ->
  exists message,
    research_failure env = Some message
    /\ (forall e, research_reply env = FetchRejects e -> message = e)
    /\ (forall r errJson d,
          research_reply env = FetchResolves r ->
          json r = JsonResolves errJson ->
          get_prop errJson (lit "detail") = Some (VStr d) ->
          string_truthy d = true ->
          message = d).
Proof.
  unfold fetch_failed, research_failure.
  destruct (research_reply env) as [e0|r0].
  - intros _. exists e0. split; [reflexivity|]. split.
    + intros e He. congruence.
    + intros r errJson d He. discriminate He.
  - intros Hok. apply negb_true_iff in Hok. rewrite Hok.
    eexists. split; [reflexivity|]. split.
    + intros e He. discriminate He.
    + intros r errJson d He Hj Hd Ht. injection He as <-.
      unfold http_error_message. rewrite Hj, Hd.
      unfold or_else. cbn [truthy]. rewrite Ht. reflexivity.
Qed.

Lemma handleResearch_trace env s sess :
  session s = Some sess ->
  send_blocked s = false ->
  trace_of (handleResearch env) s
  = PostResearch (query s) (user_id sess) (currentConversationId s)
    :: failure_log env ++ resync_log env (isNewChat_of s) sess.
Proof.
  intros Hs Hb. unfold trace_of. rewrite (handleResearch_run env s sess Hs Hb).
  reflexivity.
Qed.

Lemma no_resync_iff env s sess :
  session s = Some sess ->
  send_blocked s = false ->
  no_resync (trace_of (handleResearch env) s) <-> resyncs (isNewChat_of s) sess = false.
Proof.
  intros Hs Hb. rewrite (handleResearch_trace env s sess Hs Hb).
  unfold no_resync, resync_log, failure_log, history_log. split.
  - intros Hno. destruct (resyncs (isNewChat_of s) sess); [|reflexivity].
    exfalso. apply (Hno (user_id sess)).
    right. apply in_or_app. right. left. reflexivity.
  - intros -> uid [H | H]; [discriminate H|].
    rewrite app_nil_r in H.
    destruct (research_failure env); simpl in H; [|tauto].
    destruct H as [H | []]. discriminate H.
Qed.

(** C4, as the code has it.  When a send fails before streaming ([fetch]
    rejects or the status is not 2xx), the ai placeholder is replaced with
    the formatted error message: that of the rejection, the [detail] of the
    answer when that is a non-empty string, and otherwise what the body
    gives.  The history is not refetched when the send was started with an
    active conversation id; a send started without one refetches it on this
    path as on every other, since the resync sits in the [finally] block.
    The session is one of a signed-in user, whose id is not empty. *)
Theorem handleResearch_error_path
    (env : ResearchWorld) (s : State) (sess : Session) :
  session s = Some sess ->
  send_blocked s = false ->
  string_truthy (user_id sess) = true ->
  fetch_failed (research_reply env) = true ->
  (exists message,
     messages (state_after (handleResearch env) s)
     = messages s ++ [user_message (query s); research_error message]
     /\ (forall e, research_reply env = FetchRejects e -> message = e)
     /\ (forall r errJson d,
           research_reply env = FetchResolves r ->
           json r = JsonResolves errJson ->
           get_prop errJson (lit "detail") = Some (VStr d) ->
           string_truthy d = true ->
           message = d))
  /\ (no_resync (trace_of (handleResearch env) s)
      <-> id_truthy (currentConversationId s) = true)
  /\ (id_truthy (currentConversationId s) = false ->
      In (SelectConversations (user_id sess)) (trace_of (handleResearch env) s)).
Proof.
  intros Hs Hb Hu Hf.
  assert (Hre : resyncs (isNewChat_of s) sess = negb (id_truthy (currentConversationId s))).
  { unfold resyncs, isNewChat_of. rewrite Hu. apply andb_true_r. }
  split; [|split].
  - destruct (fetch_failed_failure env Hf) as (message & Hm & Hrej & Hdet).
    exists message. split; [|split; assumption].
    rewrite handleResearch_messages by exact Hb.
    unfold final_entry. rewrite Hm. reflexivity.
  - rewrite (no_resync_iff env s sess Hs Hb), Hre.
    destruct (id_truthy (currentConversationId s)); simpl; split; congruence.
  - intros Hid. rewrite (handleResearch_trace env s sess Hs Hb).
    unfold resync_log, history_log. rewrite Hre, Hid. cbn [negb].
    right. apply in_or_app. right. left. reflexivity.
Qed.

Lemma handleResearch_error_path_witness :
  (exists message,
     messages (state_after (handleResearch offline_world) two_chats_asking)
     = messages two_chats_asking
       ++ [user_message (query two_chats_asking); research_error message]
     /\ message = lit "Failed to fetch")
  /\ no_resync (trace_of (handleResearch offline_world) two_chats_asking).
Proof.
  destruct (handleResearch_error_path offline_world two_chats_asking (mkSession (lit "u1"))
              eq_refl eq_refl eq_refl eq_refl)
    as ((message & Hm & Hrej & _) & Hno & _).
  split.
  - exists message. split; [exact Hm|]. apply Hrej. reflexivity.
  - apply Hno. reflexivity.
Defined.

(** C4 as stated fails: a first send of a new chat, by a signed-in user,
    whose [fetch] rejects ends in the error state and the history is
    refetched all the same. *)
Lemma handleResearch_error_path_resyncs :
  session (signed_in (lit "hello")) = Some (mkSession (lit "u1"))
  /\ string_truthy (user_id (mkSession (lit "u1"))) = true
  /\ send_blocked (signed_in (lit "hello")) = false
  /\ fetch_failed (research_reply offline_world) = true
  /\ messages (state_after (handleResearch offline_world) (signed_in (lit "hello")))
     = [user_message (lit "hello"); research_error (lit "Failed to fetch")]
  /\ In (SelectConversations (lit "u1"))
       (trace_of (handleResearch offline_world) (signed_in (lit "hello")))
  /\ ~ no_resync (trace_of (handleResearch offline_world) (signed_in (lit "hello"))).
Proof.
  repeat split.
  - vm_compute. right. right. left. reflexivity.
  - intros Hno. apply (Hno (lit "u1")). vm_compute. right. right. left. reflexivity.
Qed.

(** ** The overloaded backend *)

Lemma contains_middle (pre sub post : jsstring) : contains (pre ++ sub ++ post) sub.
Proof. exists pre, post. reflexivity. Qed.

(** C6.  When the backend answers the research POST with status 500 and the
    body [{"detail":"overloaded"}], the last entry after [handleResearch] is
    an ai entry whose content is the error message built around
    [overloaded]. *)
Theorem handleResearch_overloaded
    (env : ResearchWorld) (s : State) (stream : option Stream) :
  send_blocked s = false ->
  research_reply env = FetchResolves (overloaded stream) ->
  exists text,
    last (messages (state_after (handleResearch env) s)) = Some (ai_message text)
    /\ text = lit "Error: " ++ lit "overloaded" ++ [10; 10]
              ++ lit "There was an issue connecting to the AI service."
    /\ contains text (lit "overloaded").
Proof.
  intros Hb Hr.
  exists (lit "Error: " ++ lit "overloaded" ++ [10; 10]
          ++ lit "There was an issue connecting to the AI service.").
  split; [|split; [reflexivity|apply contains_middle]].
  rewrite handleResearch_messages by exact Hb.
  unfold final_entry, research_failure. rewrite Hr.
  change (ok (overloaded stream)) with false. cbv iota.
  change (http_error_message (research_type_error env) (overloaded stream))
    with (lit "overloaded").
  change (messages s ++ [user_message (query s); ?m])
    with (messages s ++ [user_message (query s)] ++ [m]).
  rewrite app_assoc. apply last_snoc.
Qed.

Lemma handleResearch_overloaded_witness :
  exists text,
    last (messages (state_after (handleResearch overloaded_world) (signed_in (lit "hello"))))
    = Some (ai_message text)
    /\ text = lit "Error: " ++ lit "overloaded" ++ [10; 10]
              ++ lit "There was an issue connecting to the AI service."
    /\ contains text (lit "overloaded").
Proof.
  apply (handleResearch_overloaded overloaded_world (signed_in (lit "hello")) None);
    reflexivity.
Defined.

(** ** The resync after a send in a new chat *)

(** C7.  After a send started with no active conversation id, the history
    has been refetched and replaced as a whole, and when the refetched
    history is not empty the active conversation id is the id of its first
    entry.  The session is one of a signed-in user: the id of a user is
    never the empty string, the one id for which [fetchHistory] returns at
    its guard. *)
Theorem handleResearch_resync (env : ResearchWorld) (s : State) (sess : Session) :
  session s = Some sess ->
  send_blocked s = false ->
  currentConversationId s = None ->
  string_truthy (user_id sess) = true ->
  resynced env sess (state_after (handleResearch env) s) (trace_of (handleResearch env) s).
Proof.
  intros Hs Hb Hid Hu.
  unfold resynced, state_after, trace_of.
  rewrite (handleResearch_run env s sess Hs Hb). cbn [snd ui trace].
  unfold finally_state, resync_log, resyncs, isNewChat_of. rewrite Hid, Hu.
  cbn [id_truthy negb andb history currentConversationId].
  split; [|split].
  - right. apply in_or_app. right. left. reflexivity.
  - reflexivity.
  - intros newest rest ->. reflexivity.
Qed.

Lemma handleResearch_resync_witness :
  resynced hello_world (mkSession (lit "u1"))
    (state_after (handleResearch hello_world) (signed_in (lit "hello")))
    (trace_of (handleResearch hello_world) (signed_in (lit "hello"))).
Proof. apply handleResearch_resync; reflexivity. Defined.

(** ** The guard of a send *)

(** C8.  When the query is empty, or there is no session, or a send is in
    flight, a call of [handleResearch] changes nothing (the message
    sequence stays as it is, no placeholder is appended) and issues no
    request; the same holds when the call comes from the Enter key or the
    send button of the input, and with an empty query the key handler does
    not even call [handleResearch]. *)
Theorem handleResearch_noop (env : ResearchWorld) (s : State) (e : KeyEvent) :
  string_truthy (query s) = false \/ session s = None \/ isLoading s = true ->
  run (handleResearch env) s = (Returns tt, mkWorld s [])
  /\ messages (state_after (handleResearch env) s) = messages s
  /\ trace_of (handleResearch env) s = []
  /\ snd (run (handleKeyDown env e) s) = mkWorld s []
  /\ snd (run (click_send env) s) = mkWorld s []
  /\ (string_truthy (query s) = false ->
      run (handleKeyDown env e) s = (Returns false, mkWorld s [])).
Proof.
  intros H.
  assert (Hb : send_blocked s = true).
  { unfold send_blocked. destruct H as [-> | [-> | ->]].
    - rewrite orb_true_r. reflexivity.
    - reflexivity.
    - apply orb_true_r. }
  pose proof (handleResearch_blocked env s Hb) as Hrun.
  unfold state_after, trace_of. rewrite Hrun.
  repeat split.
  - unfold run, handleKeyDown, with_render in *. cbn [ui].
    destruct (string_eqb (key e) (lit "Enter") && negb (shiftKey e)
              && negb (input_isLoading s) && string_truthy (query s)).
    + unfold bind. rewrite Hrun. reflexivity.
    + reflexivity.
  - unfold run, click_send, with_render in *. cbn [ui].
    destruct (send_disabled s); [reflexivity|]. rewrite Hrun. reflexivity.
  - intros Hq. unfold run, handleKeyDown, with_render. cbn [ui].
    rewrite Hq, andb_false_r. reflexivity.
Qed.

Lemma handleResearch_noop_witness :
  run (handleResearch hello_world) (signed_in []) = (Returns tt, mkWorld (signed_in []) [])
  /\ messages (state_after (handleResearch hello_world) (signed_in []))
     = messages (signed_in [])
  /\ trace_of (handleResearch hello_world) (signed_in []) = []
  /\ snd (run (handleKeyDown hello_world (mkKeyEvent (lit "Enter") false)) (signed_in []))
     = mkWorld (signed_in []) []
  /\ snd (run (click_send hello_world) (signed_in [])) = mkWorld (signed_in []) []
  /\ (string_truthy (query (signed_in [])) = false ->
      run (handleKeyDown hello_world (mkKeyEvent (lit "Enter") false)) (signed_in [])
      = (Returns false, mkWorld (signed_in []) [])).
Proof.
  apply handleResearch_noop. left. reflexivity.
Defined.

(** ** Loading a conversation *)

Lemma loadConversation_blocked env i s :
  id_truthy i = false \/ isLoadingConversation s = true ->
  run (loadConversation env i) s = (Returns tt, mkWorld s []).
Proof.
  intros H. unfold run, loadConversation, with_render. cbn [ui].
  destruct i as [cid|]; [|reflexivity].
  destruct H as [-> | ->]; [reflexivity|].
  rewrite orb_true_r. reflexivity.
Qed.

Lemma loadConversation_failed env s cid :
  id_truthy (Some cid) = true ->
  isLoadingConversation s = false ->
  fetch_failed (conversation_reply env) = true ->
  run (loadConversation env (Some cid)) s
  = (Returns tt,
     mkWorld
       (mkState (session s) [load_failure (load_error_message env)] (query s) (history s)
          (Some cid) (isLoading s) (isLoadingHistory s) false false)
       [GetConversation (requested_url env cid);
        ConsoleError (lit "Error loading conversation:") (load_error_message env)]).
Proof.
  intros Hid Hl Hf. unfold run, loadConversation, with_render. cbn [ui].
  rewrite Hid, Hl. cbn [negb orb].
  unfold load_error_message, fetch_failed in *.
  destruct (conversation_reply env) as [message|r].
  - reflexivity.
  - unfold bind at 1 2 3 4, update at 1 2 3 4. cbn [ui trace].
    unfold try_finally, try_catch, bind at 1, fetch.
    unfold bind at 1 2, emit at 1, ret at 1. cbn [ui trace].
    unfold response_json.
    destruct (json r) as [message|data].
    + reflexivity.
    + unfold ret at 1. rewrite Hf.
      unfold bind at 1, prop.
      destruct (get_prop data (lit "detail")) as [detail|]; reflexivity.
Qed.

(** C10.  When [loadConversation] is called with a conversation id while no
    load is in flight and the fetch fails ([fetch] rejects or the status is
    not 2xx), the message sequence becomes exactly one ai entry that
    describes the failure (the message of the rejection, the [detail] of
    the answer when that is a non-empty string, the fixed text when the
    answer has no truthy [detail]), and the active conversation id is the
    requested id: it was set before the fetch and is not set back.  A call
    with a falsy id, or while a load is in flight, changes nothing and
    issues no request. *)
Theorem loadConversation_failure (env : ConversationWorld) (s : State) (cid : ConvId) :
  id_truthy (Some cid) = true ->
  isLoadingConversation s = false ->
  fetch_failed (conversation_reply env) = true ->
  (exists message,
     messages (state_after (loadConversation env (Some cid)) s)
     = [ai_message (lit "Failed to load conversation: " ++ message)]
     /\ (forall e, conversation_reply env = FetchRejects e -> message = e)
     /\ (forall r data d,
           conversation_reply env = FetchResolves r ->
           json r = JsonResolves data ->
           get_prop data (lit "detail") = Some (VStr d) ->
           string_truthy d = true ->
           message = d)
     /\ (forall r data detail,
           conversation_reply env = FetchResolves r ->
           json r = JsonResolves data ->
           get_prop data (lit "detail") = Some detail ->
           truthy detail = false ->
           message = lit "Failed to load messages."))
  /\ currentConversationId (state_after (loadConversation env (Some cid)) s) = Some cid
  /\ isLoadingConversation (state_after (loadConversation env (Some cid)) s) = false
  /\ (forall i s',
        id_truthy i = false \/ isLoadingConversation s' = true ->
        run (loadConversation env i) s' = (Returns tt, mkWorld s' [])).
Proof.
  intros Hid Hl Hf. unfold state_after.
  rewrite (loadConversation_failed env s cid Hid Hl Hf). cbn [snd ui].
  split; [|repeat split; intros i s'; apply loadConversation_blocked].
  exists (load_error_message env). split; [reflexivity|].
  unfold load_error_message. repeat split.
  - intros e ->. reflexivity.
  - intros r data d -> -> -> Ht.
    unfold or_else. cbn [truthy]. rewrite Ht. reflexivity.
  - intros r data detail -> -> -> Ht.
    unfold or_else. rewrite Ht. reflexivity.
Qed.

Lemma loadConversation_failure_witness :
  (exists message,
     messages (state_after (loadConversation unreachable_backend (Some (IdStr (lit "42"))))
                 two_chats)
     = [ai_message (lit "Failed to load conversation: " ++ message)]
     /\ message = lit "Failed to fetch")
  /\ currentConversationId
       (state_after (loadConversation unreachable_backend (Some (IdStr (lit "42")))) two_chats)
     = Some (IdStr (lit "42"))
  /\ isLoadingConversation
       (state_after (loadConversation unreachable_backend (Some (IdStr (lit "42")))) two_chats)
     = false.
Proof.
  destruct (loadConversation_failure unreachable_backend two_chats (IdStr (lit "42"))
              eq_refl eq_refl eq_refl)
    as ((message & Hm & Hrej & _) & Hid & Hflag & _).
  split; [|split; assumption].
  exists message. split; [exact Hm|]. apply Hrej. reflexivity.
Defined.

(** * Further properties of the page *)

(** ** The read loop and the bytes it is given *)

Lemma final_entry_streamed env r stream :
  research_reply env = FetchResolves r ->
  ok r = true ->
  body r = Some stream ->
  ending stream = EndOfStream ->
  final_entry env = ai_message (snd (decode_chunks new_TextDecoder [] (chunks stream))).
Proof.
  intros Hr Hok Hbody Hend.
  unfold final_entry, research_failure, received_chunks.
  rewrite Hr, Hok, Hbody, Hend. reflexivity.
Qed.

Lemma streamed_text_of_bytes chunks :
  snd (decode_chunks new_TextDecoder [] chunks)
  = snd (Utf8.serialize false
           (snd (Utf8.process Utf8.initial (map byte_value (concat chunks))))).
Proof.
  rewrite decode_chunks_concat by (right; reflexivity).
  cbn [td_decoder td_bom_seen new_TextDecoder].
  destruct (Utf8.process Utf8.initial (map byte_value (concat chunks))) as [d out].
  cbn [snd]. destruct (Utf8.serialize false out) as [seen text]. reflexivity.
Qed.

(** X1.  What a send shows at the end depends on the bytes of the stream
    only, not on where the network cut them into chunks. *)
Theorem handleResearch_chunking_independent
    (env1 env2 : ResearchWorld) (s : State) (r1 r2 : Response) (stream1 stream2 : Stream) :
  send_blocked s = false ->
  research_reply env1 = FetchResolves r1 -> ok r1 = true ->
  body r1 = Some stream1 -> ending stream1 = EndOfStream ->
  research_reply env2 = FetchResolves r2 -> ok r2 = true ->
  body r2 = Some stream2 -> ending stream2 = EndOfStream ->
  concat (chunks stream1) = concat (chunks stream2) ->
  messages (state_after (handleResearch env1) s)
  = messages (state_after (handleResearch env2) s).
Proof.
  intros Hb Hr1 Hok1 Hb1 He1 Hr2 Hok2 Hb2 He2 Hcat.
  rewrite !handleResearch_messages by exact Hb.
  rewrite (final_entry_streamed env1 r1 stream1), (final_entry_streamed env2 r2 stream2)
    by assumption.
  rewrite !streamed_text_of_bytes, Hcat. reflexivity.
Qed.

Lemma handleResearch_chunking_independent_witness :
  messages (state_after (handleResearch hello_world) (signed_in (lit "hello")))
  = messages (state_after (handleResearch hello_world_bytewise) (signed_in (lit "hello"))).
Proof.
  eapply handleResearch_chunking_independent; reflexivity.
Defined.

Lemma decode_chunks_acc td acc chunks :
  snd (decode_chunks td acc chunks) = acc ++ snd (decode_chunks td [] chunks).
Proof.
  revert td acc. induction chunks as [|value rest IH]; intros td acc.
  - simpl. rewrite app_nil_r. reflexivity.
  - simpl. destruct (decode td value true) as [td1 chunk].
    rewrite (IH td1 (acc ++ chunk)), (IH td1 chunk).
    rewrite app_assoc. reflexivity.
Qed.

Lemma decode_chunks_app td acc chunks more :
  decode_chunks td acc (chunks ++ more)
  = decode_chunks (fst (decode_chunks td acc chunks)) (snd (decode_chunks td acc chunks)) more.
Proof.
  revert td acc. induction chunks as [|value rest IH]; intros td acc.
  - reflexivity.
  - simpl. destruct (decode td value true) as [td1 chunk]. apply IH.
Qed.

(** X2.  While a stream is read the text of the trailing ai entry only
    grows: what the read loop shows after some chunks is a prefix of what it
    shows after any further chunks. *)
Theorem read_loop_text_grows (td : TextDecoder) (acc : jsstring)
    (chunks more : list (list byte)) (w : World) (pre : list Message) :
  messages (ui w) = pre ++ [ai_message acc] ->
  exists shown suffix,
    messages (ui (snd (read_loop chunks EndOfStream td acc w))) = pre ++ [ai_message shown]
    /\ messages (ui (snd (read_loop (chunks ++ more) EndOfStream td acc w)))
       = pre ++ [ai_message (shown ++ suffix)].
Proof.
  intros Hm.
  rewrite !(read_loop_run _ EndOfStream td acc w pre Hm). cbn [snd ui messages setMessages].
  rewrite decode_chunks_app, (decode_chunks_acc _ (snd (decode_chunks td acc chunks))).
  eauto.
Qed.

Lemma read_loop_text_grows_witness :
  exists shown suffix,
    messages (ui (snd (read_loop [[xe2]; [x82]] EndOfStream new_TextDecoder []
                         (mkWorld (setMessages (fun _ => [ai_message []]) (signed_in [])) []))))
    = [] ++ [ai_message shown]
    /\ messages (ui (snd (read_loop ([[xe2]; [x82]] ++ [[xac; x21]]) EndOfStream
                            new_TextDecoder []
                            (mkWorld (setMessages (fun _ => [ai_message []]) (signed_in [])) []))))
       = [] ++ [ai_message (shown ++ suffix)].
Proof.
  apply read_loop_text_grows. reflexivity.
Defined.

(** X3.  After a stream that was read to its end, the text shown is the
    UTF-8 decoding of the whole stream, or that decoding without its final
    U+FFFD: at most one replacement character is missing, and only at the
    very end. *)
Theorem handleResearch_streamed_text
    (env : ResearchWorld) (s : State) (r : Response) (stream : Stream) :
  send_blocked s = false ->
  research_reply env = FetchResolves r ->
  ok r = true ->
  body r = Some stream ->
  ending stream = EndOfStream ->
  exists text,
    last (messages (state_after (handleResearch env) s)) = Some (ai_message text)
    /\ (utf8_decode (concat (chunks stream)) = text
        \/ utf8_decode (concat (chunks stream)) = text ++ [65533]).
Proof.
  intros Hb Hr Hok Hbody Hend.
  exists (snd (decode_chunks new_TextDecoder [] (chunks stream))). split.
  - apply (handleResearch_streamed env s r stream); assumption.
  - rewrite utf8_decode_concat. unfold pending_replacement.
    destruct (Utf8.bytes_needed _ =? 0).
    + left. apply app_nil_r.
    + right. reflexivity.
Qed.

Lemma handleResearch_streamed_text_witness :
  exists text,
    last (messages (state_after (handleResearch truncated_world) (signed_in (lit "hello"))))
    = Some (ai_message text)
    /\ (utf8_decode (concat (chunks truncated_stream)) = text
        \/ utf8_decode (concat (chunks truncated_stream)) = text ++ [65533]).
Proof.
  eapply handleResearch_streamed_text; reflexivity.
Defined.

Lemma process_ascii (bs : list Z) :
  Forall (fun b => 0 <= b < 128) bs ->
  Utf8.process Utf8.initial bs = (Utf8.initial, bs).
Proof.
  induction 1 as [|b bs Hb _ IH]; [reflexivity|].
  simpl. unfold Utf8.process_byte, Utf8.handler. cbn [Utf8.bytes_needed Utf8.initial].
  replace (Utf8.in_range 0 127 b) with true
    by (symmetry; unfold Utf8.in_range; apply andb_true_iff; split; apply Z.leb_le; lia).
  cbn. rewrite IH. reflexivity.
Qed.

Lemma serialize_ascii seen (bs : list Z) :
  Forall (fun b => 0 <= b < 128) bs ->
  snd (Utf8.serialize seen bs) = bs.
Proof.
  intros H. revert seen. induction H as [|b bs Hb _ IH]; intros seen; [reflexivity|].
  simpl. specialize (IH true). destruct (Utf8.serialize true bs) as [s out].
  cbn [snd] in IH. subst out.
  replace (b =? 65279) with false by (symmetry; apply Z.eqb_neq; lia).
  rewrite andb_false_r. unfold Utf8.utf16.
  replace (b <? 65536) with true by (symmetry; apply Z.ltb_lt; lia).
  reflexivity.
Qed.

(** X4.  A stream of ASCII bytes is shown byte for byte, each byte as the
    character with that code. *)
Theorem handleResearch_ascii_stream
    (env : ResearchWorld) (s : State) (r : Response) (stream : Stream) :
  send_blocked s = false ->
  research_reply env = FetchResolves r ->
  ok r = true ->
  body r = Some stream ->
  ending stream = EndOfStream ->
  Forall (fun b => byte_value b < 128) (concat (chunks stream)) ->
  last (messages (state_after (handleResearch env) s))
  = Some (ai_message (map byte_value (concat (chunks stream)))).
Proof.
  intros Hb Hr Hok Hbody Hend Hascii.
  rewrite (handleResearch_streamed env s r stream) by assumption.
  rewrite streamed_text_of_bytes.
  assert (Hz : Forall (fun b => 0 <= b < 128) (map byte_value (concat (chunks stream)))).
  { apply Forall_map. eapply Forall_impl; [exact Hascii|].
    intros b Hlt. cbn beta in *. unfold byte_value in *. lia. }
  rewrite process_ascii by exact Hz. cbn [snd].
  rewrite serialize_ascii by exact Hz. reflexivity.
Qed.

Lemma handleResearch_ascii_stream_witness :
  last (messages (state_after (handleResearch hello_world) (signed_in (lit "hello"))))
  = Some (ai_message
            (map byte_value [x48; x69; x20; x74; x68; x65; x72; x65])).
Proof.
  apply (handleResearch_ascii_stream hello_world (signed_in (lit "hello"))
           (mkResponse 200 (JsonRejects (lit "Unexpected token"))
              (Some (mkStream [[x48; x69]; [x20; x74; x68; x65; x72; x65]] EndOfStream)))
           (mkStream [[x48; x69]; [x20; x74; x68; x65; x72; x65]] EndOfStream));
    try reflexivity.
  repeat constructor.
Defined.

(** ** The two updaters on any message sequence *)

Lemma stream_update_snoc text pre m :
  stream_update text (pre ++ [m])
  = if is_ai m then pre ++ [ai_message text] else pre ++ [m].
Proof.
  unfold stream_update. rewrite length_app. simpl length.
  rewrite bool_decide_eq_true_2 by lia.
  replace (length pre + 1 - 1)%nat with (length pre) by lia.
  rewrite list_lookup_middle by reflexivity.
  destruct (is_ai m); [|reflexivity].
  replace (length pre) with (length pre + 0)%nat at 1 by lia.
  rewrite insert_app_r. reflexivity.
Qed.

Lemma error_update_snoc e pre m :
  error_update e (pre ++ [m])
  = if is_ai m then pre ++ [e] else (pre ++ [m]) ++ [e].
Proof.
  unfold error_update. rewrite length_app. simpl length.
  replace (Z.of_nat (length pre + 1) - 1) with (Z.of_nat (length pre)) by lia.
  rewrite Nat2Z.id, list_lookup_middle by reflexivity.
  replace (0 <=? Z.of_nat (length pre)) with true by (symmetry; apply Z.leb_le; lia).
  destruct (is_ai m); simpl; [|reflexivity].
  rewrite take_app_length. reflexivity.
Qed.

Lemma consecutive_ai_snoc l a :
  consecutive_ai (l ++ [a])
  = consecutive_ai l
    || match last l with
       | Some m => is_ai m && is_ai a
       | None => false
       end.
Proof.
  induction l as [|x l IH]; [reflexivity|].
  destruct l as [|y l].
  - simpl. rewrite orb_false_r. reflexivity.
  - change (consecutive_ai ((x :: y :: l) ++ [a]))
      with ((is_ai x && is_ai y) || consecutive_ai ((y :: l) ++ [a])).
    rewrite IH.
    change (consecutive_ai (x :: y :: l))
      with ((is_ai x && is_ai y) || consecutive_ai (y :: l)).
    change (last (x :: y :: l)) with (last (y :: l)).
    rewrite orb_assoc. reflexivity.
Qed.

(** X5.  The updater of the [catch] block, on any message sequence: the
    result ends with the error entry; a trailing ai entry is replaced (the
    length stays), anything else is kept and the error entry appended; and
    the entries before the last one are never touched. *)
Theorem error_update_frame (e : Message) (prev : list Message) :
  last (error_update e prev) = Some e
  /\ (forall m, last prev = Some m -> is_ai m = true ->
      length (error_update e prev) = length prev)
  /\ ((forall m, last prev = Some m -> is_ai m = false) ->
      error_update e prev = prev ++ [e])
  /\ (forall i, (S i < length prev)%nat -> error_update e prev !! i = prev !! i).
Proof.
  destruct prev as [|x l] using rev_ind.
  - repeat split; try reflexivity.
    + intros m H. discriminate H.
    + intros i Hi. simpl in Hi. lia.
  - clear IHl. rewrite error_update_snoc, last_snoc.
    repeat split.
    + destruct (is_ai x); apply last_snoc.
    + intros m [= <-] ->. rewrite !length_app. reflexivity.
    + intros H. rewrite (H x eq_refl). reflexivity.
    + intros i Hi. rewrite length_app in Hi. simpl in Hi.
      destruct (is_ai x).
      * rewrite !lookup_app_l by lia. reflexivity.
      * rewrite <- app_assoc. rewrite !lookup_app_l by lia. reflexivity.
Qed.

(** X6.  Neither updater can put two ai entries next to each other: on
    every message sequence that has no two consecutive ai entries, whatever
    handler produced it, the result of the read loop's updater and the
    result of the [catch] block's updater have none. *)
Theorem updaters_keep_no_consecutive_ai
    (text : jsstring) (e : Message) (prev : list Message) :
  consecutive_ai prev = false ->
  consecutive_ai (stream_update text prev) = false
  /\ consecutive_ai (error_update e prev) = false.
Proof.
  destruct prev as [|x l] using rev_ind.
  - intros _. split; reflexivity.
  - clear IHl. rewrite consecutive_ai_snoc. intros Hc.
    apply orb_false_iff in Hc. destruct Hc as [Hl Hx].
    rewrite stream_update_snoc, error_update_snoc.
    destruct (is_ai x) eqn:Hai.
    + rewrite !consecutive_ai_snoc, Hl. cbn [orb].
      destruct (last l) as [m|]; [|split; reflexivity].
      rewrite andb_true_r in Hx. rewrite Hx. split; reflexivity.
    + split.
      * rewrite consecutive_ai_snoc, Hl, Hai. exact Hx.
      * rewrite consecutive_ai_snoc, last_snoc, Hai. cbn [andb].
        rewrite orb_false_r, consecutive_ai_snoc, Hl, Hai. exact Hx.
Qed.

Lemma updaters_keep_no_consecutive_ai_witness :
  consecutive_ai
    (stream_update (lit "Hi") [user_message (lit "q"); ai_message []]) = false
  /\ consecutive_ai
       (error_update (research_error (lit "Failed to fetch"))
          [user_message (lit "q"); ai_message []]) = false.
Proof. apply updaters_keep_no_consecutive_ai. reflexivity. Defined.

(** ** What a send leaves alone *)

Lemma final_entry_is_ai env : is_ai (final_entry env) = true.
Proof. unfold final_entry. destruct (research_failure env); reflexivity. Qed.

Lemma no_post_after env isNewChat sess q u c :
  ~ In (PostResearch q u c) (failure_log env ++ resync_log env isNewChat sess).
Proof.
  unfold failure_log, resync_log, history_log. intros H.
  apply in_app_or in H. destruct H as [H | H].
  - destruct (research_failure env); simpl in H; [|tauto].
    destruct H as [H | []]. discriminate H.
  - destruct (resyncs isNewChat sess); simpl in H; [|tauto].
    destruct H as [H | H]; [discriminate H|].
    destruct (history_failure (history_reply env)); simpl in H; [|tauto].
    destruct H as [H | []]. discriminate H.
Qed.

(** X7.  A send that passes the guard never throws; it appends exactly two
    entries to the messages it found, the user's query and one ai entry, and
    drops or changes none of the earlier ones; it empties the input; it
    leaves the session, the sidebar and the conversation-loading flag
    alone; and it posts exactly one research request, the first thing it
    does, carrying the query, the user id and the conversation id of the
    render. *)
Theorem handleResearch_frame (env : ResearchWorld) (s : State) (sess : Session) :
  session s = Some sess ->
  send_blocked s = false ->
  fst (run (handleResearch env) s) = Returns tt
  /\ (exists entry,
        messages (state_after (handleResearch env) s)
        = messages s ++ [user_message (query s); entry]
        /\ is_ai entry = true)
  /\ query (state_after (handleResearch env) s) = []
  /\ session (state_after (handleResearch env) s) = session s
  /\ sidebarOpen (state_after (handleResearch env) s) = sidebarOpen s
  /\ isLoadingConversation (state_after (handleResearch env) s) = isLoadingConversation s
  /\ exists rest,
       trace_of (handleResearch env) s
       = PostResearch (query s) (user_id sess) (currentConversationId s) :: rest
       /\ forall q u c, ~ In (PostResearch q u c) rest.
Proof.
  intros Hs Hb. unfold state_after, trace_of.
  rewrite (handleResearch_run env s sess Hs Hb). cbn [fst snd ui trace].
  split; [reflexivity|]. split.
  - exists (final_entry env). split; [apply finally_state_messages|apply final_entry_is_ai].
  - unfold finally_state.
    repeat split; try (destruct (resyncs (isNewChat_of s) sess); reflexivity).
    eexists. split; [reflexivity|]. intros q u c. apply no_post_after.
Qed.

Lemma handleResearch_frame_witness :
  fst (run (handleResearch offline_world) two_chats_asking) = Returns tt
  /\ (exists entry,
        messages (state_after (handleResearch offline_world) two_chats_asking)
        = messages two_chats_asking ++ [user_message (query two_chats_asking); entry]
        /\ is_ai entry = true)
  /\ query (state_after (handleResearch offline_world) two_chats_asking) = []
  /\ session (state_after (handleResearch offline_world) two_chats_asking)
     = session two_chats_asking
  /\ sidebarOpen (state_after (handleResearch offline_world) two_chats_asking)
     = sidebarOpen two_chats_asking
  /\ isLoadingConversation (state_after (handleResearch offline_world) two_chats_asking)
     = isLoadingConversation two_chats_asking
  /\ exists rest,
       trace_of (handleResearch offline_world) two_chats_asking
       = PostResearch (query two_chats_asking) (user_id (mkSession (lit "u1")))
           (currentConversationId two_chats_asking) :: rest
       /\ forall q u c, ~ In (PostResearch q u c) rest.
Proof. apply handleResearch_frame; reflexivity. Defined.

(** X8.  A send in a conversation that already has a truthy id leaves the
    history, the active conversation id and the history-loading flag as
    they were and never selects from [conversations], whatever the
    outcome. *)
Theorem handleResearch_existing_conversation (env : ResearchWorld) (s : State) :
  send_blocked s = false ->
  id_truthy (currentConversationId s) = true ->
  history (state_after (handleResearch env) s) = history s
  /\ currentConversationId (state_after (handleResearch env) s) = currentConversationId s
  /\ isLoadingHistory (state_after (handleResearch env) s) = isLoadingHistory s
  /\ no_resync (trace_of (handleResearch env) s).
Proof.
  intros Hb Hid. destruct (send_blocked_false s Hb) as (sess & Hs & _).
  assert (Hr : resyncs (isNewChat_of s) sess = false).
  { unfold resyncs, isNewChat_of. rewrite Hid. reflexivity. }
  split; [|split; [|split]]; try apply (no_resync_iff env s sess Hs Hb); try exact Hr;
    unfold state_after; rewrite (handleResearch_run env s sess Hs Hb); cbn [snd ui];
    unfold finally_state; rewrite Hr; reflexivity.
Qed.

Lemma handleResearch_existing_conversation_witness :
  history (state_after (handleResearch hello_world) two_chats_asking)
  = history two_chats_asking
  /\ currentConversationId (state_after (handleResearch hello_world) two_chats_asking)
     = currentConversationId two_chats_asking
  /\ isLoadingHistory (state_after (handleResearch hello_world) two_chats_asking)
     = isLoadingHistory two_chats_asking
  /\ no_resync (trace_of (handleResearch hello_world) two_chats_asking).
Proof. apply handleResearch_existing_conversation; reflexivity. Defined.

(** X9.  A first send of a new chat that fails before streaming still
    adopts a conversation: when the select that follows returns a non-empty
    list, the active conversation id becomes the id of its first entry,
    although the last message is the error entry (with the message of the
    rejection when [fetch] rejected). *)
Theorem handleResearch_failed_first_send
    (env : ResearchWorld) (s : State) (sess : Session)
    (newest : Conversation) (older : list Conversation) :
  session s = Some sess ->
  send_blocked s = false ->
  currentConversationId s = None ->
  string_truthy (user_id sess) = true ->
  fetch_failed (research_reply env) = true ->
  history_reply env = SelectResolves (Some (newest :: older)) None ->
  (exists message,
     last (messages (state_after (handleResearch env) s)) = Some (research_error message)
     /\ (forall e, research_reply env = FetchRejects e -> message = e))
  /\ currentConversationId (state_after (handleResearch env) s) = Some (conv_id newest)
  /\ history (state_after (handleResearch env) s) = newest :: older.
Proof.
  intros Hs Hb Hid Hu Hf Hh. split.
  - destruct (fetch_failed_failure env Hf) as (message & Hm & Hrej & _).
    exists message. split; [|exact Hrej].
    rewrite handleResearch_messages by exact Hb.
    unfold final_entry. rewrite Hm.
    change (messages s ++ [user_message (query s); ?m])
      with (messages s ++ [user_message (query s)] ++ [m]).
    rewrite app_assoc. apply last_snoc.
  - unfold state_after. rewrite (handleResearch_run env s sess Hs Hb). cbn [snd ui].
    unfold finally_state, resyncs, isNewChat_of. rewrite Hid, Hu, Hh. split; reflexivity.
Qed.

Lemma handleResearch_failed_first_send_witness :
  (exists message,
     last (messages (state_after (handleResearch offline_world) (signed_in (lit "hello"))))
     = Some (research_error message)
     /\ message = lit "Failed to fetch")
  /\ currentConversationId (state_after (handleResearch offline_world) (signed_in (lit "hello")))
     = Some (conv_id (mkConversation (IdNum 3) (lit "older") (lit "2025-01-01")))
  /\ history (state_after (handleResearch offline_world) (signed_in (lit "hello")))
     = [mkConversation (IdNum 3) (lit "older") (lit "2025-01-01")].
Proof.
  destruct (handleResearch_failed_first_send offline_world (signed_in (lit "hello"))
              (mkSession (lit "u1"))
              (mkConversation (IdNum 3) (lit "older") (lit "2025-01-01")) []
              eq_refl eq_refl eq_refl eq_refl eq_refl eq_refl)
    as ((message & Hm & Hrej) & Hid & Hh).
  split; [|split; assumption].
  exists message. split; [exact Hm|]. apply Hrej. reflexivity.
Defined.

(** X10.  When the select that follows a send in a new chat fails, the
    history list is emptied, whatever it held and however the send itself
    went; the active conversation id is not changed and the error goes to
    the console only. *)
Theorem handleResearch_failed_resync
    (env : ResearchWorld) (s : State) (sess : Session) (message : jsstring) :
  session s = Some sess ->
  send_blocked s = false ->
  id_truthy (currentConversationId s) = false ->
  string_truthy (user_id sess) = true ->
  history_failure (history_reply env) = Some message ->
  history (state_after (handleResearch env) s) = []
  /\ currentConversationId (state_after (handleResearch env) s) = currentConversationId s
  /\ isLoadingHistory (state_after (handleResearch env) s) = false
  /\ In (ConsoleError (lit "Error fetching history:") message)
       (trace_of (handleResearch env) s)
  /\ forall text, ~ In (Alert text) (trace_of (handleResearch env) s).
Proof.
  intros Hs Hb Hid Hu Hh.
  assert (Href : refetched (history_reply env) = []).
  { destruct (history_reply env) as [|data [|]]; try reflexivity. discriminate Hh. }
  unfold state_after, trace_of. rewrite (handleResearch_run env s sess Hs Hb).
  cbn [snd ui trace].
  unfold finally_state, resync_log, resyncs, isNewChat_of, history_log, failure_log.
  rewrite Hid, Hu, Hh, Href. cbn [negb andb history currentConversationId isLoadingHistory].
  repeat split.
  - right. apply in_or_app. right. right. left. reflexivity.
  - intros text [H | H]; [discriminate H|].
    apply in_app_or in H. destruct H as [H | H].
    + destruct (research_failure env); simpl in H; [|tauto].
      destruct H as [H | []]. discriminate H.
    + destruct H as [H | [H | []]]; discriminate H.
Qed.

Lemma handleResearch_failed_resync_witness :
  history (state_after (handleResearch history_down)
             (setCurrentConversationId None two_chats_asking)) = []
  /\ currentConversationId (state_after (handleResearch history_down)
                              (setCurrentConversationId None two_chats_asking))
     = currentConversationId (setCurrentConversationId None two_chats_asking)
  /\ isLoadingHistory (state_after (handleResearch history_down)
                         (setCurrentConversationId None two_chats_asking)) = false
  /\ In (ConsoleError (lit "Error fetching history:") (lit "timeout"))
       (trace_of (handleResearch history_down)
          (setCurrentConversationId None two_chats_asking))
  /\ forall text,
       ~ In (Alert text)
           (trace_of (handleResearch history_down)
              (setCurrentConversationId None two_chats_asking)).
Proof.
  apply (handleResearch_failed_resync history_down
           (setCurrentConversationId None two_chats_asking) (mkSession (lit "u1")));
    reflexivity.
Defined.

(** ** [fetchHistory] on its own *)

(** X11.  [fetchHistory] never throws.  Called with a non-empty user id it
    issues one select, ends with the history-loading flag cleared and
    replaces the history by what the select returned, or by the empty list
    when the select failed or returned [null]; it touches nothing else.
    Called with an empty user id it does nothing at all and returns
    [undefined]. *)
Theorem fetchHistory_outcome (reply : select_reply) (userId : jsstring) (s : State) :
  (string_truthy userId = true ->
   fst (run (fetchHistory reply userId) s) = Returns (fetched_value reply)
   /\ state_after (fetchHistory reply userId) s
      = setIsLoadingHistory false (setHistory (fun _ => refetched reply) s)
   /\ (history_failure reply <> None ->
       history (state_after (fetchHistory reply userId) s) = []
       /\ fetched_value reply = Some [])
   /\ exists rest,
        trace_of (fetchHistory reply userId) s = SelectConversations userId :: rest
        /\ forall uid, ~ In (SelectConversations uid) rest)
  /\ (string_truthy userId = false ->
      run (fetchHistory reply userId) s = (Returns None, mkWorld s [])).
Proof.
  split.
  - intros Hu. unfold state_after, trace_of, run.
    rewrite (fetchHistory_run reply userId _ Hu). cbn [fst snd ui trace app].
    repeat split.
    + destruct reply as [|data [|]]; try reflexivity. simpl in *. congruence.
    + destruct reply as [|data [|]]; try reflexivity. simpl in *. congruence.
    + unfold history_log. eexists. split; [reflexivity|].
      intros uid H. destruct (history_failure reply); simpl in H; [|tauto].
      destruct H as [H | []]. discriminate H.
  - intros Hu. apply fetchHistory_skipped. exact Hu.
Qed.

(** ** Loading a conversation, every outcome *)

Lemma map_rows_run type_error items w :
  map_rows type_error items w
  = (match rows_of items with
     | Some rows => Returns rows
     | None => Throws type_error
     end, w).
Proof.
  induction items as [|msg rest IH]; [reflexivity|].
  simpl. unfold bind at 1, prop.
  destruct (get_prop msg (lit "role")) as [r|]; [|reflexivity].
  unfold ret at 1, bind at 1.
  destruct (get_prop msg (lit "content")) as [c|]; [|reflexivity].
  unfold ret at 1, bind at 1. rewrite IH.
  destruct (rows_of rest); reflexivity.
Qed.

Lemma rows_of_objects items :
  Forall (fun v => v <> VNull /\ v <> VUndefined) items ->
  rows_of items = Some (map row_of_json items).
Proof.
  induction 1 as [|v items [Hn Hu] _ IH]; [reflexivity|].
  simpl. rewrite IH. unfold row_of_json.
  destruct v; try reflexivity; congruence.
Qed.

Lemma rows_of_null items : In VNull items -> rows_of items = None.
Proof.
  induction items as [|v items IH]; [intros []|].
  intros [-> | Hin]; [reflexivity|].
  simpl. rewrite (IH Hin).
  destruct (get_prop v (lit "role")), (get_prop v (lit "content")); reflexivity.
Qed.

(** A load that passes the guard: the whole run. *)
Lemma loadConversation_run env s cid :
  id_truthy (Some cid) = true ->
  isLoadingConversation s = false ->
  run (loadConversation env (Some cid)) s
  = (Returns tt,
     mkWorld
       (mkState (session s) (loaded_messages env) (query s) (history s)
          (Some cid) (isLoading s) (isLoadingHistory s) false false)
       (GetConversation (requested_url env cid) :: load_log env)).
Proof.
  intros Hid Hl. unfold run, loadConversation, with_render. cbn [ui].
  rewrite Hid, Hl. cbn [negb orb].
  unfold loaded_messages, load_log, load_outcome.
  destruct (conversation_reply env) as [message|r]; [reflexivity|].
  unfold bind at 1 2 3 4, update at 1 2 3 4. cbn [ui trace].
  unfold try_finally, try_catch, bind at 1, fetch.
  unfold bind at 1 2, emit at 1, ret at 1. cbn [ui trace].
  unfold response_json.
  destruct (json r) as [message|data]; [reflexivity|].
  unfold ret at 1. destruct (ok r); cbn [negb].
  - destruct data; try reflexivity.
    unfold bind at 1. rewrite map_rows_run.
    destruct (rows_of items); reflexivity.
  - unfold bind at 1, prop.
    destruct (get_prop data (lit "detail")) as [detail|]; reflexivity.
Qed.

(** X12.  When the backend answers 2xx with a JSON array whose elements are
    not [null], the messages become exactly one entry per element, in the
    order of the array, each with the [role] and [content] of its element
    ([undefined] where the element has none); the requested id becomes the
    active one, the loading flag is cleared and nothing is logged: the one
    effect is the GET, and its URL ends in the id, a string id as it is and
    a numeric id of magnitude below [2^53] as its decimal numeral. *)
Theorem loadConversation_success
    (env : ConversationWorld) (s : State) (cid : ConvId) (r : Response)
    (items : list jsvalue) :
  id_truthy (Some cid) = true ->
  isLoadingConversation s = false ->
  conversation_reply env = FetchResolves r ->
  ok r = true ->
  json r = JsonResolves (VArr items) ->
  Forall (fun v => v <> VNull /\ v <> VUndefined) items ->
  messages (state_after (loadConversation env (Some cid)) s) = map row_of_json items
  /\ length (messages (state_after (loadConversation env (Some cid)) s)) = length items
  /\ currentConversationId (state_after (loadConversation env (Some cid)) s) = Some cid
  /\ isLoadingConversation (state_after (loadConversation env (Some cid)) s) = false
  /\ exists path,
       trace_of (loadConversation env (Some cid)) s = [GetConversation path]
       /\ (safe_id cid = true -> path = conversation_url cid).
Proof.
  intros Hid Hl Hr Hok Hj Hitems. unfold state_after, trace_of.
  rewrite (loadConversation_run env s cid Hid Hl). cbn [snd ui trace messages].
  unfold loaded_messages, load_log, load_outcome.
  rewrite Hr, Hj, Hok, (rows_of_objects items Hitems).
  rewrite length_map. repeat split.
  exists (requested_url env cid). split; [reflexivity|].
  intros Hsafe. unfold requested_url. rewrite Hsafe. reflexivity.
Qed.

Lemma loadConversation_success_witness :
  messages (state_after (loadConversation stored_conversation (Some (IdStr (lit "42")))) two_chats)
  = map row_of_json
      [VObj [(lit "role", VStr (lit "user")); (lit "content", VStr (lit "q"))];
       VObj [(lit "content", VStr (lit "a")); (lit "role", VStr (lit "ai"))]]
  /\ length (messages (state_after (loadConversation stored_conversation
                                      (Some (IdStr (lit "42")))) two_chats))
     = length [VObj [(lit "role", VStr (lit "user")); (lit "content", VStr (lit "q"))];
               VObj [(lit "content", VStr (lit "a")); (lit "role", VStr (lit "ai"))]]
  /\ currentConversationId
       (state_after (loadConversation stored_conversation (Some (IdStr (lit "42")))) two_chats)
     = Some (IdStr (lit "42"))
  /\ isLoadingConversation
       (state_after (loadConversation stored_conversation (Some (IdStr (lit "42")))) two_chats)
     = false
  /\ trace_of (loadConversation stored_conversation (Some (IdStr (lit "42")))) two_chats
     = [GetConversation (conversation_url (IdStr (lit "42")))].
Proof.
  assert (Hitems :
            Forall (fun v => v <> VNull /\ v <> VUndefined)
              [VObj [(lit "role", VStr (lit "user")); (lit "content", VStr (lit "q"))];
               VObj [(lit "content", VStr (lit "a")); (lit "role", VStr (lit "ai"))]]).
  { repeat constructor; discriminate. }
  destruct (loadConversation_success stored_conversation two_chats (IdStr (lit "42"))
              (mkResponse 200
                 (JsonResolves
                    (VArr [VObj [(lit "role", VStr (lit "user"));
                                 (lit "content", VStr (lit "q"))];
                           VObj [(lit "content", VStr (lit "a"));
                                 (lit "role", VStr (lit "ai"))]]))
                 None)
              [VObj [(lit "role", VStr (lit "user")); (lit "content", VStr (lit "q"))];
               VObj [(lit "content", VStr (lit "a")); (lit "role", VStr (lit "ai"))]]
              eq_refl eq_refl eq_refl eq_refl eq_refl Hitems)
    as (Hm & Hlen & Hid & Hflag & path & Htrace & Hpath).
  split; [exact Hm|]. split; [exact Hlen|]. split; [exact Hid|]. split; [exact Hflag|].
  rewrite Htrace, (Hpath eq_refl). reflexivity.
Defined.

(** X13.  A load that passes the guard never throws and, whatever the
    backend does, ends with the requested id as the active conversation,
    the loading flag cleared and the sidebar closed; it leaves the session,
    the input, the history and the busy flag of a send as they were, and
    issues exactly one request, the GET of that conversation: its URL ends
    in the id, a string id as it is and a numeric id of magnitude below
    [2^53] as its decimal numeral.  The messages it leaves are the rows of
    the answer or a single ai entry. *)
Theorem loadConversation_frame (env : ConversationWorld) (s : State) (cid : ConvId) :
  id_truthy (Some cid) = true ->
  isLoadingConversation s = false ->
  fst (run (loadConversation env (Some cid)) s) = Returns tt
  /\ currentConversationId (state_after (loadConversation env (Some cid)) s) = Some cid
  /\ isLoadingConversation (state_after (loadConversation env (Some cid)) s) = false
  /\ sidebarOpen (state_after (loadConversation env (Some cid)) s) = false
  /\ session (state_after (loadConversation env (Some cid)) s) = session s
  /\ query (state_after (loadConversation env (Some cid)) s) = query s
  /\ history (state_after (loadConversation env (Some cid)) s) = history s
  /\ isLoading (state_after (loadConversation env (Some cid)) s) = isLoading s
  /\ (exists url rest,
        trace_of (loadConversation env (Some cid)) s = GetConversation url :: rest
        /\ (safe_id cid = true -> url = conversation_url cid)
        /\ forall path, ~ In (GetConversation path) rest)
  /\ (load_outcome env = Returns (messages (state_after (loadConversation env (Some cid)) s))
      \/ exists message,
           messages (state_after (loadConversation env (Some cid)) s)
           = [load_failure message]).
Proof.
  intros Hid Hl. unfold state_after, trace_of.
  rewrite (loadConversation_run env s cid Hid Hl). cbn [fst snd ui trace].
  repeat split.
  - eexists _, _. split; [reflexivity|].
    split; [intros Hsafe; unfold requested_url; rewrite Hsafe; reflexivity|].
    intros path H. unfold load_log in H.
    destruct (load_outcome env); simpl in H; [tauto|].
    destruct H as [H | []]. discriminate H.
  - cbn [messages]. unfold loaded_messages.
    destruct (load_outcome env) as [rows|e]; [left; reflexivity|right; eauto].
Qed.

Lemma loadConversation_frame_witness :
  fst (run (loadConversation unreachable_backend (Some (IdNum 3))) two_chats) = Returns tt
  /\ currentConversationId (state_after (loadConversation unreachable_backend (Some (IdNum 3))) two_chats)
     = Some (IdNum 3)
  /\ isLoadingConversation (state_after (loadConversation unreachable_backend (Some (IdNum 3))) two_chats)
     = false
  /\ sidebarOpen (state_after (loadConversation unreachable_backend (Some (IdNum 3))) two_chats)
     = false
  /\ session (state_after (loadConversation unreachable_backend (Some (IdNum 3))) two_chats)
     = session two_chats
  /\ query (state_after (loadConversation unreachable_backend (Some (IdNum 3))) two_chats)
     = query two_chats
  /\ history (state_after (loadConversation unreachable_backend (Some (IdNum 3))) two_chats)
     = history two_chats
  /\ isLoading (state_after (loadConversation unreachable_backend (Some (IdNum 3))) two_chats)
     = isLoading two_chats
  /\ (exists rest,
        trace_of (loadConversation unreachable_backend (Some (IdNum 3))) two_chats
        = GetConversation (conversation_url (IdNum 3)) :: rest
        /\ forall path, ~ In (GetConversation path) rest)
  /\ (load_outcome unreachable_backend
      = Returns (messages (state_after (loadConversation unreachable_backend (Some (IdNum 3)))
                             two_chats))
      \/ exists message,
           messages (state_after (loadConversation unreachable_backend (Some (IdNum 3))) two_chats)
           = [load_failure message]).
Proof.
  destruct (loadConversation_frame unreachable_backend two_chats (IdNum 3) eq_refl eq_refl)
    as (H1 & H2 & H3 & H4 & H5 & H6 & H7 & H8 & (url & rest & Htr & Hurl & Hno) & H10).
  repeat (split; [assumption|]).
  split; [|exact H10].
  exists rest. split; [|exact Hno].
  rewrite Htr, (Hurl eq_refl). reflexivity.
Defined.

(** X14.  A 2xx answer that cannot be shown is reported like a failed
    fetch: when the body is JSON but not an array, or an array that holds
    [null], the messages become the single ai entry that carries the
    engine's [TypeError] message. *)
Theorem loadConversation_malformed
    (env : ConversationWorld) (s : State) (cid : ConvId) (r : Response) (data : jsvalue) :
  id_truthy (Some cid) = true ->
  isLoadingConversation s = false ->
  conversation_reply env = FetchResolves r ->
  ok r = true ->
  json r = JsonResolves data ->
  (forall items, data <> VArr items) \/ (exists items, data = VArr items /\ In VNull items) ->
  messages (state_after (loadConversation env (Some cid)) s)
  = [load_failure (conversation_type_error env)]
  /\ In (ConsoleError (lit "Error loading conversation:") (conversation_type_error env))
       (trace_of (loadConversation env (Some cid)) s).
Proof.
  intros Hid Hl Hr Hok Hj Hbad. unfold state_after, trace_of.
  rewrite (loadConversation_run env s cid Hid Hl). cbn [snd ui trace messages].
  unfold loaded_messages, load_log, load_outcome. rewrite Hr, Hj, Hok.
  destruct Hbad as [Hno | (items & -> & Hin)].
  - destruct data; try (split; [reflexivity|right; left; reflexivity]).
    exfalso. apply (Hno items). reflexivity.
  - rewrite (rows_of_null items Hin). split; [reflexivity|right; left; reflexivity].
Qed.

Lemma loadConversation_malformed_witness :
  messages (state_after (loadConversation empty_object_answer (Some (IdNum 3))) two_chats)
  = [load_failure (conversation_type_error empty_object_answer)]
  /\ In (ConsoleError (lit "Error loading conversation:")
           (conversation_type_error empty_object_answer))
       (trace_of (loadConversation empty_object_answer (Some (IdNum 3))) two_chats).
Proof.
  eapply loadConversation_malformed; try reflexivity.
  left. intros items H. discriminate H.
Defined.

(** ** Deleting a conversation, every outcome *)

Lemma find_no_conversation cid (l : list Conversation) :
  ~ In cid (map conv_id l) ->
  List.find (fun conv => id_eqb (conv_id conv) cid) l = None.
Proof.
  induction l as [|c l IH]; [reflexivity|].
  simpl. intros Hn. unfold id_eqb at 1.
  rewrite bool_decide_eq_false_2 by tauto. apply IH. tauto.
Qed.

Lemma handleDeleteConversation_done env s cid conv :
  List.find (fun conv => id_eqb (conv_id conv) cid) (history s) = Some conv ->
  confirm_reply env = true ->
  delete_failure (messages_delete_reply env) = None ->
  delete_failure (conversation_delete_reply env) = None ->
  run (handleDeleteConversation env cid) s
  = (Returns tt,
     mkWorld
       (if bool_decide (currentConversationId s = Some cid) then
          mkState (session s) [] [] (without cid (history s)) None
            (isLoading s) (isLoadingHistory s) (isLoadingConversation s) false
        else setHistory (without cid) s)
       [Confirm (confirm_text conv); DeleteMessages cid; DeleteConversation cid]).
Proof.
  intros Hfind Hc Hmsg Hconv. unfold run, handleDeleteConversation, with_render.
  cbn [ui]. rewrite Hfind, Hc. cbn [negb].
  unfold bind at 1, emit at 1. cbn [ui trace].
  unfold try_catch, bind at 1.
  rewrite await_delete_run, Hmsg. unfold bind at 1.
  rewrite await_delete_run, Hconv. cbn [ui trace].
  unfold bind at 1, update at 1. cbn [ui trace].
  destruct (bool_decide (currentConversationId s = Some cid)); reflexivity.
Qed.

Lemma handleDeleteConversation_messages_failed env s cid conv message :
  List.find (fun conv => id_eqb (conv_id conv) cid) (history s) = Some conv ->
  confirm_reply env = true ->
  delete_failure (messages_delete_reply env) = Some message ->
  run (handleDeleteConversation env cid) s
  = (Returns tt,
     mkWorld s
       [Confirm (confirm_text conv); DeleteMessages cid;
        ConsoleError (lit "Error deleting conversation:") message;
        Alert (lit "Failed to delete chat: " ++ message)]).
Proof.
  intros Hfind Hc Hmsg. unfold run, handleDeleteConversation, with_render.
  cbn [ui]. rewrite Hfind, Hc. cbn [negb].
  unfold bind at 1, emit at 1. cbn [ui trace].
  unfold try_catch, bind at 1.
  rewrite await_delete_run, Hmsg. reflexivity.
Qed.

(** X15.  When the user confirms and both deletes succeed, the history
    loses the entries with the deleted id and nothing else: every other
    conversation stays, in the order it had; no alert is shown, and the
    two deletes were issued in the order messages, conversation. *)
Theorem handleDeleteConversation_success (env : DeleteWorld) (s : State) (cid : ConvId) :
  In cid (map conv_id (history s)) ->
  confirm_reply env = true ->
  delete_failure (messages_delete_reply env) = None ->
  delete_failure (conversation_delete_reply env) = None ->
  history (state_after (handleDeleteConversation env cid) s) = without cid (history s)
  /\ ~ In cid (map conv_id (history (state_after (handleDeleteConversation env cid) s)))
  /\ (forall c, In c (history (state_after (handleDeleteConversation env cid) s))
                <-> In c (history s) /\ conv_id c <> cid)
  /\ (exists text,
        trace_of (handleDeleteConversation env cid) s
        = [Confirm text; DeleteMessages cid; DeleteConversation cid]).
Proof.
  intros Hin Hc Hmsg Hconv.
  destruct (find_conversation cid (history s) Hin) as [conv Hfind].
  unfold state_after, trace_of.
  rewrite (handleDeleteConversation_done env s cid conv) by assumption.
  cbn [snd ui trace].
  assert (Hh : history (if bool_decide (currentConversationId s = Some cid) then
                          mkState (session s) [] [] (without cid (history s)) None
                            (isLoading s) (isLoadingHistory s) (isLoadingConversation s) false
                        else setHistory (without cid) s) = without cid (history s)).
  { destruct (bool_decide (currentConversationId s = Some cid)); reflexivity. }
  rewrite Hh. clear Hh.
  assert (Hiff : forall c, In c (without cid (history s))
                           <-> In c (history s) /\ conv_id c <> cid).
  { intros c. unfold without. rewrite filter_In. unfold id_eqb.
    rewrite negb_true_iff, bool_decide_eq_false. reflexivity. }
  repeat split; try apply Hiff; eauto.
  intros H. apply in_map_iff in H. destruct H as (c & Hid & Hc').
  apply Hiff in Hc'. tauto.
Qed.

Lemma handleDeleteConversation_success_witness :
  history (state_after (handleDeleteConversation deleted (IdNum 3)) two_chats)
  = without (IdNum 3) (history two_chats)
  /\ ~ In (IdNum 3)
         (map conv_id (history (state_after (handleDeleteConversation deleted (IdNum 3)) two_chats)))
  /\ (forall c, In c (history (state_after (handleDeleteConversation deleted (IdNum 3)) two_chats))
                <-> In c (history two_chats) /\ conv_id c <> IdNum 3)
  /\ (exists text,
        trace_of (handleDeleteConversation deleted (IdNum 3)) two_chats
        = [Confirm text; DeleteMessages (IdNum 3); DeleteConversation (IdNum 3)]).
Proof.
  apply handleDeleteConversation_success; try reflexivity.
  simpl. right. left. reflexivity.
Defined.

(** X16.  After a successful delete of the conversation that is open, the
    page is a new chat: no messages, an empty input, no active conversation
    id, the sidebar closed.  After a successful delete of any other
    conversation the messages, the input and the active conversation id are
    what they were. *)
Theorem handleDeleteConversation_active (env : DeleteWorld) (s : State) (cid : ConvId) :
  In cid (map conv_id (history s)) ->
  confirm_reply env = true ->
  delete_failure (messages_delete_reply env) = None ->
  delete_failure (conversation_delete_reply env) = None ->
  (currentConversationId s = Some cid ->
   messages (state_after (handleDeleteConversation env cid) s) = []
   /\ query (state_after (handleDeleteConversation env cid) s) = []
   /\ currentConversationId (state_after (handleDeleteConversation env cid) s) = None
   /\ sidebarOpen (state_after (handleDeleteConversation env cid) s) = false)
  /\ (currentConversationId s <> Some cid ->
      messages (state_after (handleDeleteConversation env cid) s) = messages s
      /\ query (state_after (handleDeleteConversation env cid) s) = query s
      /\ currentConversationId (state_after (handleDeleteConversation env cid) s)
         = currentConversationId s
      /\ sidebarOpen (state_after (handleDeleteConversation env cid) s) = sidebarOpen s).
Proof.
  intros Hin Hc Hmsg Hconv.
  destruct (find_conversation cid (history s) Hin) as [conv Hfind].
  unfold state_after.
  rewrite (handleDeleteConversation_done env s cid conv) by assumption.
  cbn [snd ui]. split; intros Hid.
  - rewrite bool_decide_eq_true_2 by exact Hid. repeat split.
  - rewrite bool_decide_eq_false_2 by exact Hid. repeat split.
Qed.

Lemma handleDeleteConversation_active_witness :
  (currentConversationId two_chats = Some (IdNum 7) ->
   messages (state_after (handleDeleteConversation deleted (IdNum 7)) two_chats) = []
   /\ query (state_after (handleDeleteConversation deleted (IdNum 7)) two_chats) = []
   /\ currentConversationId (state_after (handleDeleteConversation deleted (IdNum 7)) two_chats)
      = None
   /\ sidebarOpen (state_after (handleDeleteConversation deleted (IdNum 7)) two_chats) = false)
  /\ (currentConversationId two_chats <> Some (IdNum 7) ->
      messages (state_after (handleDeleteConversation deleted (IdNum 7)) two_chats)
      = messages two_chats
      /\ query (state_after (handleDeleteConversation deleted (IdNum 7)) two_chats)
         = query two_chats
      /\ currentConversationId (state_after (handleDeleteConversation deleted (IdNum 7)) two_chats)
         = currentConversationId two_chats
      /\ sidebarOpen (state_after (handleDeleteConversation deleted (IdNum 7)) two_chats)
         = sidebarOpen two_chats).
Proof.
  apply handleDeleteConversation_active; try reflexivity.
  simpl. left. reflexivity.
Defined.

(** X17.  When the delete of the message rows fails, the delete of the
    conversation row is never issued; the state is what it was and the user
    is shown an alert with the error. *)
Theorem handleDeleteConversation_messages_failure
    (env : DeleteWorld) (s : State) (cid : ConvId) (message : jsstring) :
  In cid (map conv_id (history s)) ->
  confirm_reply env = true ->
  delete_failure (messages_delete_reply env) = Some message ->
  state_after (handleDeleteConversation env cid) s = s
  /\ ~ In (DeleteConversation cid) (trace_of (handleDeleteConversation env cid) s)
  /\ In (DeleteMessages cid) (trace_of (handleDeleteConversation env cid) s)
  /\ In (Alert (lit "Failed to delete chat: " ++ message))
       (trace_of (handleDeleteConversation env cid) s).
Proof.
  intros Hin Hc Hmsg.
  destruct (find_conversation cid (history s) Hin) as [conv Hfind].
  unfold state_after, trace_of.
  rewrite (handleDeleteConversation_messages_failed env s cid conv message) by assumption.
  cbn [snd ui trace]. repeat split; simpl; auto 10.
  intros [H | [H | [H | [H | []]]]]; discriminate H.
Qed.

Lemma handleDeleteConversation_messages_failure_witness :
  state_after (handleDeleteConversation messages_locked (IdNum 7)) two_chats = two_chats
  /\ ~ In (DeleteConversation (IdNum 7))
         (trace_of (handleDeleteConversation messages_locked (IdNum 7)) two_chats)
  /\ In (DeleteMessages (IdNum 7))
       (trace_of (handleDeleteConversation messages_locked (IdNum 7)) two_chats)
  /\ In (Alert (lit "Failed to delete chat: " ++ lit "permission denied"))
       (trace_of (handleDeleteConversation messages_locked (IdNum 7)) two_chats).
Proof.
  apply handleDeleteConversation_messages_failure; try reflexivity.
  simpl. left. reflexivity.
Defined.

(** X18.  Nothing is deleted without the user's consent or for an id the
    history does not hold: when the confirm dialog is declined, or the id
    is not in the local history, no delete is issued, no alert is shown and
    the state is what it was; for an unknown id not even the dialog
    appears. *)
Theorem handleDeleteConversation_needs_consent
    (env : DeleteWorld) (s : State) (cid : ConvId) :
  confirm_reply env = false \/ ~ In cid (map conv_id (history s)) ->
  state_after (handleDeleteConversation env cid) s = s
  /\ (forall c, ~ In (DeleteMessages c) (trace_of (handleDeleteConversation env cid) s))
  /\ (forall c, ~ In (DeleteConversation c) (trace_of (handleDeleteConversation env cid) s))
  /\ (forall text, ~ In (Alert text) (trace_of (handleDeleteConversation env cid) s))
  /\ (~ In cid (map conv_id (history s)) ->
      trace_of (handleDeleteConversation env cid) s = []).
Proof.
  intros H.
  assert (Hrun : (exists text, run (handleDeleteConversation env cid) s
                               = (Returns tt, mkWorld s [Confirm text]))
                 \/ run (handleDeleteConversation env cid) s = (Returns tt, mkWorld s [])).
  { destruct (List.find (fun conv => id_eqb (conv_id conv) cid) (history s))
      as [conv|] eqn:Hfind.
    - destruct H as [Hc | Hn].
      + left. eexists. apply (handleDeleteConversation_declined env s cid conv Hfind Hc).
      + rewrite (find_no_conversation cid (history s) Hn) in Hfind. discriminate Hfind.
    - right. unfold run, handleDeleteConversation, with_render. cbn [ui].
      rewrite Hfind. reflexivity. }
  unfold state_after, trace_of.
  split; [|split; [|split; [|split]]].
  - destruct Hrun as [[text ->] | ->]; reflexivity.
  - intros c. destruct Hrun as [[text ->] | ->]; cbn;
      [intros [Hx | []]; discriminate Hx | intros []].
  - intros c. destruct Hrun as [[text ->] | ->]; cbn;
      [intros [Hx | []]; discriminate Hx | intros []].
  - intros c. destruct Hrun as [[text ->] | ->]; cbn;
      [intros [Hx | []]; discriminate Hx | intros []].
  - intros Hn. unfold run, handleDeleteConversation, with_render. cbn [ui].
    rewrite (find_no_conversation cid (history s) Hn). reflexivity.
Qed.

Lemma handleDeleteConversation_needs_consent_witness :
  state_after (handleDeleteConversation deleted (IdNum 9)) two_chats = two_chats
  /\ (forall c, ~ In (DeleteMessages c) (trace_of (handleDeleteConversation deleted (IdNum 9)) two_chats))
  /\ (forall c, ~ In (DeleteConversation c)
                  (trace_of (handleDeleteConversation deleted (IdNum 9)) two_chats))
  /\ (forall text, ~ In (Alert text) (trace_of (handleDeleteConversation deleted (IdNum 9)) two_chats))
  /\ (~ In (IdNum 9) (map conv_id (history two_chats)) ->
      trace_of (handleDeleteConversation deleted (IdNum 9)) two_chats = []).
Proof.
  apply handleDeleteConversation_needs_consent. right.
  simpl. intros [H | [H | []]]; discriminate H.
Defined.

(** ** Session changes *)

(** X19.  After an auth event without a session (a sign-out) the page holds
    no messages, no history and no active conversation id, it has issued no
    request, and every send is refused until a session arrives: a call of
    [handleResearch] changes nothing and posts nothing. *)
Theorem sign_out_clears (env : AuthWorld) (event : jsstring) (send : ResearchWorld)
    (s : State) :
  let after := state_after (snd (onAuthStateChange env event None)) s in
  session after = None
  /\ messages after = []
  /\ history after = []
  /\ currentConversationId after = None
  /\ query after = query s
  /\ trace_of (snd (onAuthStateChange env event None)) s = []
  /\ run (handleResearch send) after = (Returns tt, mkWorld after []).
Proof.
  cbn zeta. repeat split.
Qed.

Lemma onAuthStateChange_session_run env event sess s :
  string_truthy (user_id sess) = true ->
  run (snd (onAuthStateChange env event (Some sess))) s
  = (Returns tt,
     mkWorld
       (setIsLoadingHistory false
          (setHistory (fun _ => refetched (auth_history_reply env))
             (setSession (Some sess) s)))
       (history_log (auth_history_reply env) (user_id sess))).
Proof.
  intros Hu. unfold run, onAuthStateChange. cbn [snd].
  unfold bind at 1, update at 1. cbn [ui trace].
  unfold bind at 1. rewrite (fetchHistory_run _ _ _ Hu). reflexivity.
Qed.

(** X20.  An auth event that carries a session (a sign-in, a token refresh)
    does not disturb the conversation on screen: the messages, the input,
    the active conversation id and the busy flag stay as they were; the
    session is replaced and the history is refetched for its user. *)
Theorem session_event_keeps_conversation
    (env : AuthWorld) (event : jsstring) (sess : Session) (s : State) :
  string_truthy (user_id sess) = true ->
  let after := state_after (snd (onAuthStateChange env event (Some sess))) s in
  session after = Some sess
  /\ messages after = messages s
  /\ query after = query s
  /\ currentConversationId after = currentConversationId s
  /\ isLoading after = isLoading s
  /\ history after = refetched (auth_history_reply env)
  /\ isLoadingHistory after = false
  /\ In (SelectConversations (user_id sess))
       (trace_of (snd (onAuthStateChange env event (Some sess))) s).
Proof.
  intros Hu. cbn zeta. unfold state_after, trace_of.
  rewrite (onAuthStateChange_session_run env event sess s Hu). cbn [snd ui trace].
  repeat split. left. reflexivity.
Qed.

Lemma session_event_keeps_conversation_witness :
  let after := state_after
                 (snd (onAuthStateChange refreshed (lit "TOKEN_REFRESHED")
                         (Some (mkSession (lit "u1")))))
                 two_chats_asking in
  session after = Some (mkSession (lit "u1"))
  /\ messages after = messages two_chats_asking
  /\ query after = query two_chats_asking
  /\ currentConversationId after = currentConversationId two_chats_asking
  /\ isLoading after = isLoading two_chats_asking
  /\ history after = refetched (auth_history_reply refreshed)
  /\ isLoadingHistory after = false
  /\ In (SelectConversations (user_id (mkSession (lit "u1"))))
       (trace_of
          (snd (onAuthStateChange refreshed (lit "TOKEN_REFRESHED")
                  (Some (mkSession (lit "u1")))))
          two_chats_asking).
Proof. apply session_event_keeps_conversation. reflexivity. Defined.

(** X21.  The password of the user is only ever changed on a
    [PASSWORD_RECOVERY] event and with the non-empty text the user typed
    into the prompt; a cancelled or empty prompt issues no update, and an
    update is always followed by an alert that reports how it went. *)
Theorem password_update_needs_prompt
    (env : AuthWorld) (event : jsstring) (newSession : option Session) (p : jsstring) :
  In (UpdateUser p) (fst (onAuthStateChange env event newSession)) ->
  event = lit "PASSWORD_RECOVERY"
  /\ prompt_reply env = Some p
  /\ p <> []
  /\ exists text,
       fst (onAuthStateChange env event newSession)
       = [Prompt (lit "What would you like your new password to be?");
          UpdateUser p; RecoveryAlert text]
       /\ (auth_failure (update_reply env) = None ->
           text = lit "Password updated successfully! You can now log in.")
       /\ (forall message, auth_failure (update_reply env) = Some message ->
           text = lit "Error updating password: " ++ message).
Proof.
  unfold onAuthStateChange. cbn [fst]. unfold string_eqb.
  case_bool_decide as Hev; [|intros []].
  unfold passwordRecovery. intros [H | H]; [discriminate H|].
  destruct (prompt_reply env) as [pw|]; [|destruct H].
  destruct pw as [|c pw]; [destruct H|]. cbn [string_truthy] in *.
  destruct H as [[= <-] | H].
  - repeat split; try assumption; try discriminate.
    destruct (auth_failure (update_reply env)) as [message|].
    + eexists. split; [reflexivity|]. split; [discriminate|]. intros m [= <-]. reflexivity.
    + eexists. split; [reflexivity|]. split; [reflexivity|]. discriminate.
  - destruct (auth_failure (update_reply env)); destruct H as [H | []]; discriminate H.
Qed.

Lemma password_update_needs_prompt_witness :
  lit "PASSWORD_RECOVERY" = lit "PASSWORD_RECOVERY"
  /\ prompt_reply recovering = Some (lit "hunter22")
  /\ lit "hunter22" <> []
  /\ exists text,
       fst (onAuthStateChange recovering (lit "PASSWORD_RECOVERY") None)
       = [Prompt (lit "What would you like your new password to be?");
          UpdateUser (lit "hunter22"); RecoveryAlert text]
       /\ (auth_failure (update_reply recovering) = None ->
           text = lit "Password updated successfully! You can now log in.")
       /\ (forall message, auth_failure (update_reply recovering) = Some message ->
           text = lit "Error updating password: " ++ message).
Proof.
  apply (password_update_needs_prompt recovering (lit "PASSWORD_RECOVERY") None).
  vm_compute. right. left. reflexivity.
Defined.

(** ** The height of the text area *)

Lemma split_on_length sep s :
  length (split_on sep s) = S (count_occ Z.eq_dec s sep).
Proof.
  induction s as [|c s IH]; [reflexivity|].
  simpl. destruct (split_on sep s) as [|piece more]; [discriminate IH|].
  destruct (Z.eqb_spec c sep) as [-> | Hne].
  - destruct (Z.eq_dec sep sep); [|congruence]. simpl in *. lia.
  - destruct (Z.eq_dec c sep); [congruence|]. exact IH.
Qed.

(** X22.  The text area is 24 pixels high per line of the query plus 24,
    where a query has one line more than it has newline characters, and
    never counts more than four lines: its height lies between 48 and 120
    pixels and is 48 for a query without a newline. *)
Theorem textarea_height_bounds (q : jsstring) :
  textarea_height q = 24 * Z.min 4 (1 + Z.of_nat (count_occ Z.eq_dec q 10)) + 24
  /\ 48 <= textarea_height q <= 120
  /\ (~ In 10 q -> textarea_height q = 48)
  /\ ((3 <= count_occ Z.eq_dec q 10%Z)%nat -> textarea_height q = 120).
Proof.
  unfold textarea_height. rewrite split_on_length.
  repeat split; try lia.
  - intros Hn. apply (count_occ_not_In Z.eq_dec) in Hn. rewrite Hn. reflexivity.
Qed.

(** ** What [ChatMessages] shows *)

Lemma isStreaming_idle (msgs : list Message) :
  imap (fun index msg => (msg, ChatMessages.isStreaming false msgs index msg)) msgs
  = map (fun msg => (msg, false)) msgs.
Proof.
  change (map (fun msg : Message => (msg, false)) msgs)
    with ((fun msg : Message => (msg, false)) <$> msgs).
  rewrite <- (imap_const (fun msg => (msg, false)) msgs).
  apply imap_ext. reflexivity.
Qed.

(** X23.  In the list [ChatMessages] renders, a message is marked as
    streaming only if it is the last one, it is an ai entry and a send is in
    flight; so at most one message shows the cursor, and the list has one
    item per message, in order. *)
Theorem render_streams_only_last
    (msgs : list Message) (busy loadingConversation : bool) (email : option jsstring)
    (items : list (Message * bool)) :
  ChatMessages.render msgs busy loadingConversation email = ChatMessages.MessageList items ->
  map fst items = msgs
  /\ loadingConversation = false
  /\ msgs <> []
  /\ forall i m,
       items !! i = Some (m, true) ->
       busy = true /\ S i = length msgs /\ is_ai m = true /\ msgs !! i = Some m.
Proof.
  unfold ChatMessages.render. destruct loadingConversation; [discriminate|].
  destruct (Nat.eqb_spec (length msgs) 0) as [|Hlen]; [discriminate|].
  intros [= <-]. split; [|split; [reflexivity|split]].
  - change (fst <$> imap (fun index msg =>
                           (msg, ChatMessages.isStreaming busy msgs index msg)) msgs = msgs).
    apply list_eq. intros i. rewrite list_lookup_fmap, list_lookup_imap.
    destruct (msgs !! i); reflexivity.
  - intros ->. apply Hlen. reflexivity.
  - intros i m. rewrite list_lookup_imap.
    destruct (msgs !! i) as [x|] eqn:Hx; [|discriminate].
    cbn. intros [= -> Hst]. unfold ChatMessages.isStreaming in Hst.
    apply andb_true_iff in Hst. destruct Hst as [Hst Hai].
    apply andb_true_iff in Hst. destruct Hst as [Hbusy Hlast].
    apply Z.eqb_eq in Hlast. repeat split; try assumption. lia.
Qed.

Lemma render_streams_only_last_witness :
  map fst [(user_message (lit "q"), false); (ai_message (lit "a"), true)]
  = [user_message (lit "q"); ai_message (lit "a")]
  /\ false = false
  /\ [user_message (lit "q"); ai_message (lit "a")] <> []
  /\ forall i m,
       [(user_message (lit "q"), false); (ai_message (lit "a"), true)] !! i = Some (m, true) ->
       true = true
       /\ S i = length [user_message (lit "q"); ai_message (lit "a")]
       /\ is_ai m = true
       /\ [user_message (lit "q"); ai_message (lit "a")] !! i = Some m.
Proof.
  apply (render_streams_only_last [user_message (lit "q"); ai_message (lit "a")]
           true false None).
  reflexivity.
Defined.

(** X24.  Once a send from an idle page is over, [ChatMessages] shows the
    message list (never the welcome screen, and not the loader unless a
    conversation is loading), with no message marked as streaming. *)
Theorem render_after_send
    (env : ResearchWorld) (s : State) (email : option jsstring) :
  send_blocked s = false ->
  isLoadingConversation s = false ->
  render_messages (state_after (handleResearch env) s) email
  = ChatMessages.MessageList
      (map (fun msg => (msg, false)) (messages (state_after (handleResearch env) s)))
  /\ (2 <= length (messages (state_after (handleResearch env) s)))%nat.
Proof.
  intros Hb Hl. destruct (send_blocked_false s Hb) as (sess & Hs & _).
  assert (Hm := handleResearch_messages env s Hb).
  unfold render_messages, ChatMessages.render.
  unfold state_after in *. rewrite (handleResearch_run env s sess Hs Hb) in *.
  cbn [snd ui] in *.
  assert (Hfl : isLoading (finally_state env (isNewChat_of s) sess (settled env s)) = false)
    by apply finally_state_isLoading.
  assert (Hfc : isLoadingConversation (finally_state env (isNewChat_of s) sess (settled env s))
                = false).
  { unfold finally_state. destruct (resyncs (isNewChat_of s) sess); exact Hl. }
  rewrite Hfl, Hfc, Hm. rewrite length_app. cbn [length].
  replace (length (messages s) + 2 =? 0)%nat with false
    by (symmetry; apply Nat.eqb_neq; lia).
  split; [|lia]. rewrite isStreaming_idle. reflexivity.
Qed.

Lemma render_after_send_witness :
  render_messages (state_after (handleResearch hello_world) (signed_in (lit "hello"))) None
  = ChatMessages.MessageList
      (map (fun msg => (msg, false))
         (messages (state_after (handleResearch hello_world) (signed_in (lit "hello")))))
  /\ (2 <= length (messages (state_after (handleResearch hello_world)
                               (signed_in (lit "hello")))))%nat.
Proof. apply render_after_send; reflexivity. Defined.

Lemma split_on_head sep s :
  exists piece more,
    split_on sep s = piece :: more
    /\ ~ In sep piece
    /\ (forall rest, s = piece ++ sep :: rest -> more = split_on sep rest)
    /\ (~ In sep s -> piece = s).
Proof.
  induction s as [|c s (piece & more & Hs & Hno & Hrest & Hall)].
  - exists [], []. repeat split; try tauto.
    intros rest H. destruct rest; discriminate H.
  - simpl. rewrite Hs. destruct (Z.eqb_spec c sep) as [-> | Hne].
    + exists [], (piece :: more). repeat split; try tauto.
      intros rest [= ->]. symmetry. exact Hs.
    + exists (c :: piece), more. repeat split.
      * intros [H | H]; [congruence|tauto].
      * intros rest [= ->]. apply Hrest. reflexivity.
      * intros Hn. f_equal. apply Hall. intros H. apply Hn. right. exact H.
Qed.

Lemma split_on_prefix sep local rest :
  ~ In sep local ->
  split_on sep (local ++ sep :: rest) = local :: split_on sep rest.
Proof.
  induction local as [|c local IH]; intros Hn.
  - simpl. destruct (split_on_head sep rest) as (piece & more & -> & _).
    rewrite Z.eqb_refl. reflexivity.
  - simpl. rewrite IH by (intros H; apply Hn; right; exact H).
    destruct (Z.eqb_spec c sep) as [-> | Hc]; [|reflexivity].
    exfalso. apply Hn. left. reflexivity.
Qed.

(** X25.  The name in the greeting is never empty and never contains an
    [@]: it is the part of the email before the first [@], and
    [Researcher] when that part is empty or there is no email. *)
Theorem greeting_name_local_part (email : option jsstring) :
  ChatMessages.greeting_name email <> []
  /\ ~ In 64 (ChatMessages.greeting_name email)
  /\ (forall local domain,
        email = Some (local ++ 64 :: domain) -> local <> [] -> ~ In 64 local ->
        ChatMessages.greeting_name email = local)
  /\ (forall domain, email = Some (64 :: domain) ->
        ChatMessages.greeting_name email = lit "Researcher")
  /\ (email = None \/ email = Some [] ->
        ChatMessages.greeting_name email = lit "Researcher").
Proof.
  unfold ChatMessages.greeting_name.
  assert (Hr : ~ In 64 (lit "Researcher")).
  { vm_compute. intuition discriminate. }
  destruct email as [e|].
  - destruct (split_on_head 64 e) as (piece & more & Hs & Hno & _ & _).
    repeat split.
    + rewrite Hs. destruct piece; discriminate.
    + rewrite Hs. destruct piece; [exact Hr|exact Hno].
    + intros local domain [= ->] Hne Hnl.
      rewrite (split_on_prefix 64 local domain Hnl).
      destruct local; [congruence|reflexivity].
    + intros domain [= ->].
      change (64 :: domain) with ([] ++ 64 :: domain).
      rewrite (split_on_prefix 64 [] domain) by (intros []). reflexivity.
    + intros [H | [= ->]]; [discriminate H|reflexivity].
  - repeat split; try exact Hr; try discriminate.
Qed.

(** ** [UploaderModal] *)


(** X27.  A successful upload is one whose answer is 2xx with a body whose
    [message] has a text (its conversion in the status line does not
    throw).  The close that such an upload schedules does close the
    dialog when it fires, and the reset that this close schedules leaves an
    empty form: no file, no status text, status type ['info'].  The closure
    that fires belongs to the render in which the upload was started, so
    this needs that render not to be processing (the submit button is
    disabled otherwise); a [closeModal] of a render that is processing does
    nothing. *)
Theorem scheduled_close_closes
    (env : Uploader.UploadWorld) (userId : jsstring) (s : Uploader.UploaderState)
    (f : Uploader.File) (text : jsstring) :
  Uploader.file s = Some f ->
  string_truthy userId = true ->
  Uploader.isProcessing s = false ->
  Uploader.upload_outcome env = Returns text ->
  let after := fst (Uploader.handleUpload env userId s) in
  In (Uploader.CloseModalAfter 2000) (snd (Uploader.handleUpload env userId s))
  /\ snd (Uploader.closeModal s after) = [Uploader.ResetFormAfter 300]
  /\ Uploader.isOpen (fst (Uploader.closeModal s after)) = false
  /\ Uploader.reset_form (fst (Uploader.closeModal s after))
     = Uploader.mkUploaderState None [] false Uploader.info false
  /\ forall render, Uploader.isProcessing render = true ->
       Uploader.closeModal render after = (after, []).
Proof.
  intros Hf Hu Hp Ho. cbn zeta.
  unfold Uploader.handleUpload, Uploader.closeModal. rewrite Hf, Hu, Ho, Hp. cbn.
  repeat split.
  - right. left. reflexivity.
  - intros render ->. reflexivity.
Qed.

Lemma scheduled_close_closes_witness :
  let after := fst (Uploader.handleUpload uploaded (lit "u1") picked) in
  In (Uploader.CloseModalAfter 2000) (snd (Uploader.handleUpload uploaded (lit "u1") picked))
  /\ snd (Uploader.closeModal picked after) = [Uploader.ResetFormAfter 300]
  /\ Uploader.isOpen (fst (Uploader.closeModal picked after)) = false
  /\ Uploader.reset_form (fst (Uploader.closeModal picked after))
     = Uploader.mkUploaderState None [] false Uploader.info false
  /\ forall render, Uploader.isProcessing render = true ->
       Uploader.closeModal render after = (after, []).
Proof.
  apply (scheduled_close_closes uploaded (lit "u1") picked
           (Uploader.mkFile (lit "paper.pdf")) (lit "indexed 3 pages"));
    reflexivity.
Defined.

(** ** [AuthForm] *)

(** X28.  The form never shows an error and a success message together:
    whatever it showed before and whatever the auth provider replies, after
    [handlePasswordReset], after [handleAuthAction] and after switching
    between login and sign-up at most one of [authError] and [message] is
    set. *)
Theorem auth_form_error_or_message
    (reply : auth_reply) (origin : jsstring) (s : AuthForm.FormState) :
  let exclusive (x : AuthForm.FormState) :=
    AuthForm.authError x = None \/ AuthForm.message x = None in
  exclusive (fst (AuthForm.handlePasswordReset reply origin s))
  /\ exclusive (fst (AuthForm.handleAuthAction reply s))
  /\ exclusive (AuthForm.toggle s).
Proof.
  cbn zeta. split; [|split].
  - unfold AuthForm.handlePasswordReset.
    destruct (string_truthy (AuthForm.email s)); cbn; [|right; reflexivity].
    destruct (auth_failure reply); cbn; [right|left]; reflexivity.
  - unfold AuthForm.handleAuthAction.
    destruct reply as [e|[e|]]; destruct (AuthForm.isSigningUp s); cbn;
      first [left; reflexivity | right; reflexivity].
  - left. reflexivity.
Qed.

(** X29.  [handleAuthAction] sends exactly one request, a sign-up or a
    sign-in according to the mode, with the email and password of the form;
    it always ends with the busy flag cleared and leaves email, password and
    mode as they were; the error shown is the provider's error, none when
    it reported none; and a success message appears exactly after a sign-up
    that succeeded. *)
Theorem handleAuthAction_outcome (reply : auth_reply) (s : AuthForm.FormState) :
  let after := fst (AuthForm.handleAuthAction reply s) in
  AuthForm.isLoading after = false
  /\ AuthForm.authError after = auth_failure reply
  /\ (AuthForm.message after <> None
      <-> AuthForm.isSigningUp s = true /\ auth_failure reply = None)
  /\ AuthForm.email after = AuthForm.email s
  /\ AuthForm.password after = AuthForm.password s
  /\ AuthForm.isSigningUp after = AuthForm.isSigningUp s
  /\ exists rest,
       snd (AuthForm.handleAuthAction reply s)
       = (if AuthForm.isSigningUp s
          then AuthForm.SignUp (AuthForm.email s) (AuthForm.password s)
          else AuthForm.SignInWithPassword (AuthForm.email s) (AuthForm.password s))
         :: rest
       /\ (forall a b, ~ In (AuthForm.SignUp a b) rest)
       /\ (forall a b, ~ In (AuthForm.SignInWithPassword a b) rest).
Proof.
  cbn zeta. unfold AuthForm.handleAuthAction.
  destruct reply as [e|[e|]]; destruct (AuthForm.isSigningUp s) eqn:Hmode; cbn;
    repeat split; try (intros [? ?]); try (intros ?); try congruence;
    try (eexists; split; [reflexivity|];
         split; intros a b H; simpl in H; intuition discriminate).
Qed.

(** X30.  [handlePasswordReset] with an empty email sends nothing, shows the
    request to enter an email and leaves the busy flag as it was.  With an
    email it sends exactly one reset request, for that email and with the
    page's origin followed by a slash as the return address, ends with the
    busy flag cleared, shows the provider's error if there is one and the
    confirmation exactly when there is none. *)
Theorem handlePasswordReset_outcome
    (reply : auth_reply) (origin : jsstring) (s : AuthForm.FormState) :
  let after := fst (AuthForm.handlePasswordReset reply origin s) in
  let log := snd (AuthForm.handlePasswordReset reply origin s) in
  (AuthForm.email s = [] ->
   log = []
   /\ AuthForm.authError after
      = Some (lit "Please enter your email address to reset your password.")
   /\ AuthForm.message after = None
   /\ AuthForm.isLoading after = AuthForm.isLoading s)
  /\ (AuthForm.email s <> [] ->
      AuthForm.isLoading after = false
      /\ AuthForm.authError after = auth_failure reply
      /\ (AuthForm.message after <> None <-> auth_failure reply = None)
      /\ exists rest,
           log = AuthForm.ResetPasswordForEmail (AuthForm.email s) (origin ++ lit "/") :: rest
           /\ forall a b, ~ In (AuthForm.ResetPasswordForEmail a b) rest).
Proof.
  cbn zeta. unfold AuthForm.handlePasswordReset. split.
  - intros ->. cbn. repeat split.
  - intros Hne. destruct (AuthForm.email s) as [|c e] eqn:He; [congruence|].
    cbn [string_truthy negb].
    destruct (auth_failure reply) as [msg|]; cbn;
      repeat split; try (intros ?); try congruence;
      eexists; (split; [reflexivity|]); intros a b H; simpl in H; intuition discriminate.
Qed.


(** ** The conditional parts at concrete inputs *)

Lemma error_update_frame_witness :
  length (error_update (research_error (lit "Failed to fetch"))
            [user_message (lit "q"); ai_message (lit "partial")])
  = length [user_message (lit "q"); ai_message (lit "partial")]
  /\ error_update (research_error (lit "Failed to fetch")) [user_message (lit "q")]
     = [user_message (lit "q")] ++ [research_error (lit "Failed to fetch")].
Proof.
  split.
  - apply (proj1 (proj2 (error_update_frame (research_error (lit "Failed to fetch"))
                           [user_message (lit "q"); ai_message (lit "partial")]))
             (ai_message (lit "partial"))); reflexivity.
  - apply (proj1 (proj2 (proj2 (error_update_frame (research_error (lit "Failed to fetch"))
                                  [user_message (lit "q")])))).
    intros m [= <-]. reflexivity.
Defined.

Lemma fetchHistory_outcome_witness :
  history (state_after (fetchHistory (SelectThrows (lit "timeout")) (lit "u1")) two_chats) = []
  /\ run (fetchHistory (SelectThrows (lit "timeout")) []) two_chats
     = (Returns None, mkWorld two_chats []).
Proof.
  split.
  - apply (proj1 (proj2 (proj2 (proj1 (fetchHistory_outcome (SelectThrows (lit "timeout"))
                                         (lit "u1") two_chats) eq_refl)))).
    discriminate.
  - apply (proj2 (fetchHistory_outcome (SelectThrows (lit "timeout")) [] two_chats)).
    reflexivity.
Defined.

Lemma greeting_name_local_part_witness :
  ChatMessages.greeting_name (Some (lit "ada" ++ 64 :: lit "example.org")) = lit "ada"
  /\ ChatMessages.greeting_name (Some (64 :: lit "example.org")) = lit "Researcher".
Proof.
  split.
  - apply (proj1 (proj2 (proj2 (greeting_name_local_part
                                  (Some (lit "ada" ++ 64 :: lit "example.org")))))
             (lit "ada") (lit "example.org")).
    + reflexivity.
    + discriminate.
    + vm_compute. intuition discriminate.
  - apply (proj1 (proj2 (proj2 (proj2 (greeting_name_local_part
                                         (Some (64 :: lit "example.org"))))))
             (lit "example.org")).
    reflexivity.
Defined.


Lemma handlePasswordReset_outcome_witness :
  snd (AuthForm.handlePasswordReset (AuthResolves None) (lit "https://app.example")
         (AuthForm.mkFormState [] [] None false false None)) = []
  /\ AuthForm.isLoading
       (fst (AuthForm.handlePasswordReset (AuthResolves None) (lit "https://app.example")
               (AuthForm.mkFormState (lit "ada@example.org") [] None false false None)))
     = false.
Proof.
  split.
  - apply (proj1 (handlePasswordReset_outcome (AuthResolves None) (lit "https://app.example")
                    (AuthForm.mkFormState [] [] None false false None))).
    reflexivity.
  - apply (proj2 (handlePasswordReset_outcome (AuthResolves None) (lit "https://app.example")
                    (AuthForm.mkFormState (lit "ada@example.org") [] None false false None))).
    discriminate.
Defined.
